(** * oosawy/multicast: a shallow embedding of [multicast.go]

    The package binds a UDP socket, joins a multicast group on several
    interfaces and sends one payload through every joined interface.
    Everything the package asks of the Go runtime, of package [net] and of
    [golang.org/x/net/ipv4|ipv6] is a [Call]; an [OS] answers each call
    from the history of the calls made before it, so that an answer may
    depend on anything that happened earlier (a second close of a socket,
    a second join on one interface, ...). *)

From Stdlib Require Import List String Ascii ZArith NArith Lia Bool.
From Stdlib Require Import DecimalString.
Import ListNotations.
Open Scope string_scope.
Open Scope list_scope.

Set Warnings "-register-all".

(** ** Go values *)

(** [net.Interface]. [Flags] is a bit set ([net.Flags], a [uint]). *)
Record Interface := mkInterface {
  Index : Z;
  MTU : Z;
  Name : string;
  HardwareAddr : list N;
  Flags : N
}.

(** [net.UDPAddr]; a [*net.UDPAddr] is an [option UDPAddr], [None] for nil. *)
Record UDPAddr := mkUDPAddr {
  IP : list N;
  Port : Z;
  Zone : string
}.

(** The constants of [net.Flags], [1 << iota] in package [net]. *)
Definition FlagUp : N := N.shiftl 1 0.
Definition FlagBroadcast : N := N.shiftl 1 1.
Definition FlagLoopback : N := N.shiftl 1 2.
Definition FlagPointToPoint : N := N.shiftl 1 3.
Definition FlagMulticast : N := N.shiftl 1 4.
Definition FlagRunning : N := N.shiftl 1 5.

(** ** Errors

    A Go [error] value is an [option error], [None] for nil. The three
    shapes are the ones the package builds: [errors.New] (and [fmt.Errorf]
    without [%w]), [fmt.Errorf] with one [%w], and [errors.Join]. Errors of
    the operating system are whatever the [OS] hands back. *)
Inductive error :=
| errorString (s : string)
| wrapError (msg : string) (err : error)
| joinError (errs : list error).

(** The [Error()] method: a [joinError] prints its members one per line. *)
Fixpoint Error (e : error) : string :=
  match e with
  | errorString s => s
  | wrapError msg _ => msg
  | joinError errs =>
      (fix lines (es : list error) : string :=
         match es with
         | [] => ""
         | e0 :: es' =>
             match es' with
             | [] => Error e0
             | _ :: _ => (Error e0 ++ String "010" (lines es'))%string
             end
         end) errs
  end.

(** [errors.Join(errs...)]: nil operands are dropped; nil when none is left. *)
Definition non_nil (errs : list (option error)) : list error :=
  flat_map (fun o => match o with Some e => [e] | None => [] end) errs.

Definition errors_Join (errs : list (option error)) : option error :=
  match non_nil errs with
  | [] => None
  | es => Some (joinError es)
  end.

(** [fmt.Errorf(prefix + "%w", err)]. With a nil operand [%w] prints
    [%!w(<nil>)] and nothing is wrapped. *)
Definition fmt_Errorf_w (prefix : string) (err : option error) : error :=
  match err with
  | Some e => wrapError (prefix ++ Error e)%string e
  | None => errorString (prefix ++ "%!w(<nil>)")%string
  end.

(** [%d] of a Go [int]. *)
Definition itoa (z : Z) : string := NilZero.string_of_int (Z.to_int z).

(** Everything an error gives access to through [Unwrap() error] and
    [Unwrap() []error], itself included: what [errors.Is] walks. *)
Fixpoint chain (e : error) : list error :=
  e :: match e with
       | errorString _ => []
       | wrapError _ e' => chain e'
       | joinError es => flat_map chain es
       end.

Definition wraps (err e : error) : Prop := In e (chain err).

(** The errors a joined error holds; a nil error holds none. *)
Definition referenced (err : option error) : list error :=
  match err with
  | None => []
  | Some (joinError es) => es
  | Some e => [e]
  end.

(** ** The operating system *)

(** The file descriptor behind a [net.UDPConn]. *)
Definition Socket := nat.

(** [ipv4] or [ipv6]: which of the two [PacketConn] types a call is on. *)
Inductive Family := IPv4 | IPv6.

(** [ipv4.ControlMessage] / [ipv6.ControlMessage]; the package only ever
    sets [IfIndex], the other fields keep their zero value. *)
Record ControlMessage := mkControlMessage { IfIndex : Z }.

Inductive Call :=
| CListenUDP (network : string) (laddr : UDPAddr)
| CInterfaces
| CJoinGroup (f : Family) (s : Socket) (ifi : Interface) (group : UDPAddr)
| CClosePacketConn (f : Family) (s : Socket)
| CCloseUDP (s : Socket)
| CSetMulticastTTL (s : Socket) (ttl : Z)
| CSetMulticastHopLimit (s : Socket) (hoplim : Z)
| CSetMulticastLoopback (f : Family) (s : Socket) (on : bool)
| CSetMulticastInterface (f : Family) (s : Socket) (ifi : Interface)
| CWriteTo (f : Family) (s : Socket) (b : list N) (cm : ControlMessage)
    (dst : UDPAddr).

Record OS := mkOS {
  GOOS : string;
  net_ListenUDP : list Call -> string -> UDPAddr -> Socket + error;
  net_Interfaces : list Call -> list Interface + error;
  (** the error (nil on success) of every other call *)
  result : list Call -> Call -> option error
}.

(** ** Computations

    A computation reads the history of earlier calls and either returns a
    value together with the calls it made itself, in order, or panics. *)
Inductive outcome (A : Type) :=
| Ret (a : A) (calls : list Call)
| Panic (msg : string).
Arguments Ret {A} a calls.
Arguments Panic {A} msg.

Definition M (A : Type) := list Call -> outcome A.

Definition ret {A} (a : A) : M A := fun _ => Ret a [].

Definition bind {A B} (m : M A) (k : A -> M B) : M B :=
  fun h =>
    match m h with
    | Ret a cs =>
        match k a (h ++ cs) with
        | Ret b cs' => Ret b (cs ++ cs')
        | Panic msg => Panic msg
        end
    | Panic msg => Panic msg
    end.

Definition panic {A} (msg : string) : M A := fun _ => Panic msg.

Notation "x <- m ;; k" := (bind m (fun x => k))
  (at level 61, m at next level, right associativity).
Notation "' p <- m ;; k" := (bind m (fun x => let p := x in k))
  (at level 61, p pattern, m at next level, right associativity).

Section Package.

Variable os : OS.

(** An error-returning call into [ipv4], [ipv6] or [net]. *)
Definition call (c : Call) : M (option error) :=
  fun h => Ret (result os h c) [c].

Definition ListenUDP (network : string) (laddr : UDPAddr)
  : M (Socket + error) :=
  fun h => Ret (net_ListenUDP os h network laddr) [CListenUDP network laddr].

Definition Interfaces : M (list Interface + error) :=
  fun h => Ret (net_Interfaces os h) [CInterfaces].

(** A method call on a [*ipv4.PacketConn] or [*ipv6.PacketConn]: the
    methods used here have receivers embedded by value in [PacketConn],
    so a nil handle is a nil pointer dereference. *)
Definition on_handle {A} (pc : option Socket) (k : Socket -> M A) : M A :=
  match pc with
  | Some s => k s
  | None => panic "invalid memory address or nil pointer dereference"
  end.

(** ** [UDPConn]

    [sock] is the embedded [net.UDPConn]; [ipv4.NewPacketConn(udpConn)]
    and [ipv6.NewPacketConn(udpConn)] wrap the same descriptor. Methods
    have pointer receivers: each returns the receiver as it leaves it. *)
Record UDPConn := mkUDPConn {
  sock : Socket;
  network : string;
  ifaces : list Interface;
  ipv4conn : option Socket;
  ipv6conn : option Socket
}.

Definition set_ifaces (c : UDPConn) (l : list Interface) : UDPConn :=
  mkUDPConn (sock c) (network c) l (ipv4conn c) (ipv6conn c).

Definition set_ipv4conn (c : UDPConn) (p : option Socket) : UDPConn :=
  mkUDPConn (sock c) (network c) (ifaces c) p (ipv6conn c).

Definition set_ipv6conn (c : UDPConn) (p : option Socket) : UDPConn :=
  mkUDPConn (sock c) (network c) (ifaces c) (ipv4conn c) p.

(** [func (c *UDPConn) Close() error] *)
Definition Close (c : UDPConn) : M (UDPConn * option error) :=
  let err := None in
  '(c, err) <-
    match ipv4conn c with
    | Some pc =>
        r <- call (CClosePacketConn IPv4 pc) ;;
        ret (set_ipv4conn c None, errors_Join [err; r])
    | None => ret (c, err)
    end ;;
  '(c, err) <-
    match ipv6conn c with
    | Some pc =>
        r <- call (CClosePacketConn IPv6 pc) ;;
        ret (set_ipv6conn c None, errors_Join [err; r])
    | None => ret (c, err)
    end ;;
  r <- call (CCloseUDP (sock c)) ;;
  ret (c, errors_Join [err; r]).

(** [func (c *UDPConn) JoinMulticastGroup(iface *net.Interface,
    gaddr *net.UDPAddr) error] *)
Definition JoinMulticastGroup (c : UDPConn) (iface : option Interface)
    (gaddr : option UDPAddr) : M (UDPConn * option error) :=
  match iface with
  | None => ret (c, Some (errorString "multicast: interface cannot be nil"))
  | Some ifi =>
      match gaddr with
      | None =>
          ret (c, Some (errorString "multicast: group address cannot be nil"))
      | Some g =>
          if network c =? "udp4" then
            err <- on_handle (ipv4conn c) (fun pc =>
                     call (CJoinGroup IPv4 pc ifi g)) ;;
            match err with
            | Some e => ret (c, Some e)
            | None => ret (set_ifaces c (ifaces c ++ [ifi]), None)
            end
          else if network c =? "udp6" then
            err <- on_handle (ipv6conn c) (fun pc =>
                     call (CJoinGroup IPv6 pc ifi g)) ;;
            match err with
            | Some e => ret (c, Some e)
            | None => ret (set_ifaces c (ifaces c ++ [ifi]), None)
            end
          else panic "unreachable"
      end
  end.

(** [func (c *UDPConn) SetMulticastTTL(ttl int) error] *)
Definition SetMulticastTTL (c : UDPConn) (ttl : Z)
  : M (UDPConn * option error) :=
  if network c =? "udp4" then
    err <- on_handle (ipv4conn c) (fun pc => call (CSetMulticastTTL pc ttl)) ;;
    ret (c, err)
  else if network c =? "udp6" then
    err <- on_handle (ipv6conn c) (fun pc =>
             call (CSetMulticastHopLimit pc ttl)) ;;
    ret (c, err)
  else panic "unreachable".

(** [func (c *UDPConn) SetMulticastHopLimit(hoplim int) error] *)
Definition SetMulticastHopLimit (c : UDPConn) (hoplim : Z)
  : M (UDPConn * option error) :=
  SetMulticastTTL c hoplim.

(** [func (c *UDPConn) SetMulticastLoopback(on bool) error] *)
Definition SetMulticastLoopback (c : UDPConn) (on : bool)
  : M (UDPConn * option error) :=
  if network c =? "udp4" then
    err <- on_handle (ipv4conn c) (fun pc =>
             call (CSetMulticastLoopback IPv4 pc on)) ;;
    ret (c, err)
  else if network c =? "udp6" then
    err <- on_handle (ipv6conn c) (fun pc =>
             call (CSetMulticastLoopback IPv6 pc on)) ;;
    ret (c, err)
  else panic "unreachable".

(** [switch runtime.GOOS { case "darwin", "ios", "linux": ... }] *)
Definition per_packet_ifindex : bool :=
  (GOOS os =? "darwin") || (GOOS os =? "ios") || (GOOS os =? "linux").

(** The body of [for ifi := range c.ifaces] in [WriteToMulticast], the
    same text in the "udp4" and in the "udp6" case up to the package of
    the handle; [wcm] is declared before the loop and lives across the
    iterations, [errs] collects the failures. *)
Fixpoint write_loop (f : Family) (pconn : option Socket) (buf : list N)
    (addr : UDPAddr) (l : list Interface) (wcm : ControlMessage)
    (errs : list error) : M (list error) :=
  match l with
  | [] => ret errs
  | ifi :: l' =>
      '(wcm, errs) <-
        (if per_packet_ifindex then
           ret (mkControlMessage (Index ifi), errs)
         else
           err <- on_handle pconn (fun pc =>
                    call (CSetMulticastInterface f pc ifi)) ;;
           match err with
           | Some e => ret (wcm, errs ++ [e])
           | None => ret (wcm, errs)
           end) ;;
      err <- on_handle pconn (fun pc => call (CWriteTo f pc buf wcm addr)) ;;
      match err with
      | Some e => write_loop f pconn buf addr l' wcm (errs ++ [e])
      | None => write_loop f pconn buf addr l' wcm errs
      end
  end.

(** [func (c *UDPConn) WriteToMulticast(buf []byte, addr *net.UDPAddr) error] *)
Definition WriteToMulticast (c : UDPConn) (buf : list N)
    (addr : option UDPAddr) : M (UDPConn * option error) :=
  match addr with
  | None => ret (c, Some (errorString "multicast: address cannot be nil"))
  | Some a =>
      if (List.length buf =? 0)%nat then ret (c, None)
      else if network c =? "udp4" then
        errs <- write_loop IPv4 (ipv4conn c) buf a (ifaces c)
                  (mkControlMessage 0) [] ;;
        ret (c, errors_Join (map Some errs))
      else if network c =? "udp6" then
        errs <- write_loop IPv6 (ipv6conn c) buf a (ifaces c)
                  (mkControlMessage 0) [] ;;
        ret (c, errors_Join (map Some errs))
      else panic "unreachable"
  end.

(** The loop of [joinIfaces]: [errs] and [fails] are its two locals. *)
Fixpoint join_loop (c : UDPConn) (gaddr : option UDPAddr)
    (l : list Interface) (errs : option error) (fails : Z)
  : M (UDPConn * option error * Z) :=
  match l with
  | [] => ret (c, errs, fails)
  | iface :: l' =>
      '(c, err) <- JoinMulticastGroup c (Some iface) gaddr ;;
      match err with
      | Some e => join_loop c gaddr l' (errors_Join [errs; Some e]) (fails + 1)
      | None => join_loop c gaddr l' errs fails
      end
  end.

(** [func (c *UDPConn) joinIfaces(ifaces []net.Interface,
    gaddr *net.UDPAddr) (ok bool, err error)] *)
Definition joinIfaces (c : UDPConn) (l : list Interface)
    (gaddr : option UDPAddr) : M (UDPConn * bool * option error) :=
  '(c, errs, fails) <- join_loop c gaddr l None 0 ;;
  let len := Z.of_nat (List.length l) in
  if (fails =? len)%Z then
    ret (c, false,
         Some (fmt_Errorf_w "udp: failed to join any interface: " errs))
  else if (match errs with Some _ => true | None => false end)
          && (fails <? len)%Z then
    ret (c, true,
         Some (fmt_Errorf_w
                 ("multicast: failed to join " ++ itoa fails ++ "/"
                  ++ itoa len ++ " interfaces: ")%string errs))
  else ret (c, true, None).

(** [net.FlagUp] and [net.FlagMulticast] both set. *)
Definition up_and_multicast (ifi : Interface) : bool :=
  negb (N.land (Flags ifi) FlagUp =? 0)%N
  && negb (N.land (Flags ifi) FlagMulticast =? 0)%N.

(** The loop of [multicastInterfaces]: [mifaces] grows by [append]. *)
Fixpoint eligible_loop (l : list Interface) (mifaces : list Interface)
  : list Interface :=
  match l with
  | [] => mifaces
  | ifi :: l' =>
      if up_and_multicast ifi then eligible_loop l' (mifaces ++ [ifi])
      else eligible_loop l' mifaces
  end.

(** [func multicastInterfaces() ([]net.Interface, error)] *)
Definition multicastInterfaces : M (list Interface * option error) :=
  r <- Interfaces ;;
  match r with
  | inr err => ret ([], Some err)
  | inl l => ret (eligible_loop l [], None)
  end.

(** [func ListenMulticastUDPIfaces(network string, ifaces []net.Interface,
    addr *net.UDPAddr)], returning a [*UDPConn] (nil is [None]) and an
    error; a nil [ifaces] is [None]. *)
Definition ListenMulticastUDPIfaces (network : string)
    (ifaces : option (list Interface)) (addr : option UDPAddr)
  : M (option UDPConn * option error) :=
  match addr with
  | None => ret (None, Some (errorString "multicast: addr cannot be nil"))
  | Some a =>
      if negb ((network =? "udp4") || (network =? "udp6")) then
        ret (None,
             Some (errorString
                     ("network must be either 'udp4' or 'udp6': "
                      ++ network)%string))
      else
        r <- ListenUDP network a ;;
        match r with
        | inr err => ret (None, Some err)
        | inl udpConn =>
            '(ifaces, err) <-
              match ifaces with
              | None => multicastInterfaces
              | Some l => ret (l, None)
              end ;;
            match err with
            | Some e =>
                ret (None,
                     Some (fmt_Errorf_w
                       "multicast: failed to get multicast interfaces: "
                       (Some e)))
            | None =>
                let v4PkConn :=
                  if network =? "udp4" then Some udpConn else None in
                let v6PkConn :=
                  if network =? "udp6" then Some udpConn else None in
                let conn :=
                  mkUDPConn udpConn network ifaces v4PkConn v6PkConn in
                '(conn, ok, err) <- joinIfaces conn ifaces (Some a) ;;
                match ok, err with
                | false, Some e =>
                    _ <- Close conn ;;
                    ret (None, Some e)
                | _, _ => ret (Some conn, None)
                end
            end
        end
  end.

End Package.

Arguments per_packet_ifindex os : simpl never.

(** ** Vocabulary of the specification *)

(** The handle a method of [c] goes through: the one of [c]'s network. *)
Definition live_handle (c : UDPConn) : option (Family * Socket) :=
  if network c =? "udp4" then option_map (pair IPv4) (ipv4conn c)
  else if network c =? "udp6" then option_map (pair IPv6) (ipv6conn c)
  else None.

(** Exactly one handle is there, the one of the connection's network. *)
Definition conn_inv (c : UDPConn) : Prop :=
  (ipv4conn c <> None <-> network c = "udp4") /\
  (ipv6conn c <> None <-> network c = "udp6") /\
  (ipv4conn c = None <-> ipv6conn c <> None).

Definition family_of (network : string) : option Family :=
  if network =? "udp4" then Some IPv4
  else if network =? "udp6" then Some IPv6
  else None.

(** The flags of an interface, bit by bit. *)
Definition is_up (ifi : Interface) : bool := N.testbit (Flags ifi) 0.
Definition is_multicast (ifi : Interface) : bool := N.testbit (Flags ifi) 4.

(** What the [OS] answers to the calls [cs] made one after the other,
    starting after the history [h]. *)
Fixpoint replay (os : OS) (h : list Call) (cs : list Call)
  : list (Call * option error) :=
  match cs with
  | [] => []
  | c :: cs' => (c, result os h c) :: replay os (h ++ [c]) cs'
  end.

Definition failed (r : Call * option error) : bool :=
  match snd r with Some _ => true | None => false end.

Definition failures (rs : list (Call * option error)) : list error :=
  non_nil (map snd rs).

Definition is_WriteTo (c : Call) : bool :=
  match c with CWriteTo _ _ _ _ _ => true | _ => false end.

Definition is_SetMulticastInterface (c : Call) : bool :=
  match c with CSetMulticastInterface _ _ _ => true | _ => false end.

(** How many of the calls selected by [p] failed. *)
Definition count_failed (p : Call -> bool) (rs : list (Call * option error))
  : nat :=
  List.length (filter (fun r => p (fst r) && failed r) rs).

(** ** Hosts to run the package on

    [host goos nics bad] is a machine with the interfaces [nics] whose
    sockets get descriptor 3. A join, an interface selection or a send
    fails on the interfaces whose index is [bad]; closing a descriptor
    that was closed before fails, as package [net] has it. *)
Definition closes (s : Socket) (c : Call) : bool :=
  match c with
  | CCloseUDP s' | CClosePacketConn _ s' => (s' =? s)%nat
  | _ => false
  end.

Definition selected (h : list Call) : option Interface :=
  fold_left
    (fun acc c =>
       match c with CSetMulticastInterface _ _ ifi => Some ifi | _ => acc end)
    h None.

Definition host_result (bad : Z -> bool) (h : list Call) (c : Call)
  : option error :=
  match c with
  | CJoinGroup _ _ ifi _ =>
      if bad (Index ifi) then Some (errorString "no such device") else None
  | CSetMulticastInterface _ _ ifi =>
      if bad (Index ifi)
      then Some (errorString "can't assign requested address") else None
  | CWriteTo _ _ _ cm _ =>
      if bad (IfIndex cm)
         || match selected h with Some ifi => bad (Index ifi) | None => false end
      then Some (errorString "network is unreachable") else None
  | CCloseUDP s | CClosePacketConn _ s =>
      if existsb (closes s) h
      then Some (errorString "use of closed network connection") else None
  | _ => None
  end.

Definition host (goos : string) (nics : list Interface) (bad : Z -> bool)
  : OS :=
  mkOS goos (fun _ _ _ => inl 3%nat) (fun _ => inl nics) (host_result bad).

Definition lo : Interface :=
  mkInterface 1 65536 "lo" [] (N.lor FlagUp (N.lor FlagLoopback FlagMulticast)).
Definition eth0 : Interface :=
  mkInterface 2 1500 "eth0" [2; 0; 0; 0; 0; 1]%N
    (N.lor FlagUp (N.lor FlagBroadcast (N.lor FlagMulticast FlagRunning))).
Definition tun0 : Interface :=
  mkInterface 3 1420 "tun0" [] (N.lor FlagUp FlagPointToPoint).
Definition wlan0 : Interface :=
  mkInterface 4 1500 "wlan0" [2; 0; 0; 0; 0; 2]%N
    (N.lor FlagBroadcast FlagMulticast).

Definition wildcard : UDPAddr := mkUDPAddr [0; 0; 0; 0]%N 0 "".
Definition mdns_group : UDPAddr := mkUDPAddr [224; 0; 0; 251]%N 5353 "".

(** ** The calls the package is expected to make *)

(** One group join per candidate interface, in order. *)
Definition join_calls (f : Family) (s : Socket) (g : UDPAddr)
    (l : list Interface) : list Call :=
  map (fun ifi => CJoinGroup f s ifi g) l.

(** The interfaces of the joins that succeeded. *)
Definition joined (rs : list (Call * option error)) : list Interface :=
  flat_map
    (fun r =>
       match r with
       | (CJoinGroup _ _ ifi _, None) => [ifi]
       | _ => []
       end) rs.

(** [errors.Join(acc, r)] over the results [rs], one at a time. *)
Definition join_each (rs : list (option error)) (acc : option error)
  : option error :=
  fold_left (fun acc r => errors_Join [acc; r]) rs acc.

(** The control message of the send on [ifi]: it carries the interface
    index where the platform reads one, and is the untouched [wcm]
    elsewhere. *)
Definition wcm_for (os : OS) (wcm : ControlMessage) (ifi : Interface)
  : ControlMessage :=
  if per_packet_ifindex os then mkControlMessage (Index ifi) else wcm.

(** The calls of one fan-out send: for each member, in order, an
    interface selection where the platform needs one, then the send. *)
Definition fan_out (os : OS) (f : Family) (s : Socket) (buf : list N)
    (a : UDPAddr) (wcm : ControlMessage) (l : list Interface) : list Call :=
  flat_map
    (fun ifi =>
       (if per_packet_ifindex os then []
        else [CSetMulticastInterface f s ifi])
       ++ [CWriteTo f s buf (wcm_for os wcm ifi) a]) l.

(** The calls of a close: the handles that are there, then the socket. *)
Definition close_calls (c : UDPConn) : list Call :=
  match ipv4conn c with Some pc => [CClosePacketConn IPv4 pc] | None => [] end
  ++ match ipv6conn c with Some pc => [CClosePacketConn IPv6 pc] | None => [] end
  ++ [CCloseUDP (sock c)].

(** The candidates an open joins, with the call that lists them when the
    caller gave none; [h] is the history after the bind. *)
Definition candidates (os : OS) (h : list Call)
    (ifaces : option (list Interface))
  : option (list Interface * list Call) :=
  match ifaces with
  | Some l => Some (l, [])
  | None =>
      match net_Interfaces os h with
      | inl l =>
          Some (filter (fun ifi => is_up ifi && is_multicast ifi) l,
                [CInterfaces])
      | inr _ => None
      end
  end.

(** ** Programs of a caller between open and close *)
Inductive Op :=
| OpJoin (iface : option Interface) (gaddr : option UDPAddr)
| OpSetTTL (ttl : Z)
| OpSetHopLimit (hoplim : Z)
| OpSetLoopback (on : bool)
| OpWrite (buf : list N) (addr : option UDPAddr).

Definition step (os : OS) (c : UDPConn) (op : Op)
  : M (UDPConn * option error) :=
  match op with
  | OpJoin iface gaddr => JoinMulticastGroup os c iface gaddr
  | OpSetTTL ttl => SetMulticastTTL os c ttl
  | OpSetHopLimit hoplim => SetMulticastHopLimit os c hoplim
  | OpSetLoopback on => SetMulticastLoopback os c on
  | OpWrite buf addr => WriteToMulticast os c buf addr
  end.

Fixpoint run (os : OS) (c : UDPConn) (ops : list Op) : M UDPConn :=
  match ops with
  | [] => ret c
  | op :: ops' =>
      r <- step os c op ;;
      run os (fst r) ops'
  end.


(** What [joinIfaces] returns, from the number of joins that failed. *)
Definition join_verdict (rs : list (Call * option error)) (n : nat)
  : bool * option error :=
  let k := List.length (failures rs) in
  let errs := join_each (map Some (failures rs)) None in
  if (k =? n)%nat then
    (false, Some (fmt_Errorf_w "udp: failed to join any interface: " errs))
  else if (k =? 0)%nat then (true, None)
  else
    (true,
     Some (fmt_Errorf_w
             ("multicast: failed to join " ++ itoa (Z.of_nat k) ++ "/"
              ++ itoa (Z.of_nat n) ++ " interfaces: ")%string errs)).

(** [c'] is [c] up to its members. *)
Definition same_handles (c c' : UDPConn) : Prop :=
  sock c' = sock c /\ network c' = network c /\
  ipv4conn c' = ipv4conn c /\ ipv6conn c' = ipv6conn c.

(** A Linux machine whose tunnel interface cannot join a group; a Windows
    machine on which nothing goes out through [eth0]; a machine on which
    no interface can join. *)
Definition linux_host : OS := host "linux" [lo; eth0; tun0; wlan0] (Z.eqb 3).
Definition windows_host : OS := host "windows" [lo; eth0] (Z.eqb 2).
Definition dead_host : OS := host "linux" [lo; eth0] (fun _ => true).

(** An IPv4 connection on descriptor 3 with [eth0] as its only member. *)
Definition conn_eth0 : UDPConn := mkUDPConn 3 "udp4" [eth0] (Some 3%nat) None.

(** The payload "PING". *)
Definition ping : list N := [80; 73; 78; 71]%N.

(** ** The accessors of [UDPConn]

    A [*UDPConn] receiver that may be nil is an [option UDPConn]. *)

(** [func (c *UDPConn) Network() string] *)
Definition Network (c : option UDPConn) : string :=
  match c with
  | None => ""
  | Some c => network c
  end.

(** The zero value of [net.Interface], what [make] fills a slice with. *)
Definition zero_Interface : Interface := mkInterface 0 0 "" [] 0.

(** [make([]net.Interface, n)] *)
Definition make_Interfaces (n : nat) : list Interface :=
  repeat zero_Interface n.

(** The builtin [copy(dst, src)]: the first [min(len(dst), len(src))]
    elements of [dst] are overwritten; the result is [dst] afterwards. *)
Definition copy (dst src : list Interface) : list Interface :=
  let n := Nat.min (List.length dst) (List.length src) in
  firstn n src ++ skipn n dst.

(** [func (c *UDPConn) Interfaces() []net.Interface]; a nil slice is
    [None]. *)
Definition UDPConn_Interfaces (c : option UDPConn)
  : option (list Interface) :=
  match c with
  | None => None
  | Some c =>
      let out := make_Interfaces (List.length (ifaces c)) in
      let out := copy out (ifaces c) in
      Some out
  end.

(** ** Package [reuse]

    One of four files is built: the one for [unix && !freebsd], the one
    for [freebsd], [reuse_windows.go], or the one for
    [!unix && !windows]. *)
Inductive Target := Unix | FreeBSD | Windows | Other.

Inductive SockLevel := SOL_SOCKET.
Inductive SockOpt := SO_REUSEADDR | SO_REUSEPORT | SO_REUSEPORT_LB.

(** [unix.SetsockoptInt(fd, level, opt, value)] and
    [windows.SetsockoptInt(handle, level, opt, value)]. *)
Inductive Sys :=
| UnixSetsockoptInt (fd : Z) (level : SockLevel) (opt : SockOpt) (value : Z)
| WindowsSetsockoptInt (fd : N) (level : SockLevel) (opt : SockOpt)
    (value : Z).

(** [int(fd)] of a [uintptr], both of 64 bits. *)
Definition int_of_uintptr (fd : N) : Z :=
  let u := (Z.of_N fd mod 2 ^ 64)%Z in
  if (u <? 2 ^ 63)%Z then u else (u - 2 ^ 64)%Z.

Definition ErrReuseAddrNotSupported : error :=
  errorString "reuseaddr: not supported on this platform".
Definition ErrReusePortNotSupported : error :=
  errorString "reuseport: not supported on this platform".

(** [func ReuseAddr(fd uintptr) error]: the error and the system calls
    made, the kernel answering from the history [h]. *)
Definition ReuseAddr (t : Target) (sys : list Sys -> Sys -> option error)
    (h : list Sys) (fd : N) : option error * list Sys :=
  match t with
  | Unix | FreeBSD =>
      let c := UnixSetsockoptInt (int_of_uintptr fd) SOL_SOCKET SO_REUSEADDR 1 in
      (sys h c, [c])
  | Windows =>
      let c := WindowsSetsockoptInt fd SOL_SOCKET SO_REUSEADDR 1 in
      (sys h c, [c])
  | Other => (Some ErrReuseAddrNotSupported, [])
  end.

(** [func ReusePort(fd uintptr) error] *)
Definition ReusePort (t : Target) (sys : list Sys -> Sys -> option error)
    (h : list Sys) (fd : N) : option error * list Sys :=
  match t with
  | Unix =>
      let c := UnixSetsockoptInt (int_of_uintptr fd) SOL_SOCKET SO_REUSEPORT 1 in
      (sys h c, [c])
  | FreeBSD =>
      let c1 := UnixSetsockoptInt (int_of_uintptr fd) SOL_SOCKET SO_REUSEPORT 1 in
      match sys h c1 with
      | Some err => (Some err, [c1])
      | None =>
          let c2 :=
            UnixSetsockoptInt (int_of_uintptr fd) SOL_SOCKET SO_REUSEPORT_LB 1 in
          (sys (h ++ [c1]) c2, [c1; c2])
      end
  | Windows | Other => (Some ErrReusePortNotSupported, [])
  end.

(** What the kernel answers to the system calls [cs], one after the
    other, starting after [h]. *)
Fixpoint sys_replay (sys : list Sys -> Sys -> option error) (h : list Sys)
    (cs : list Sys) : list (option error) :=
  match cs with
  | [] => []
  | c :: cs' => sys h c :: sys_replay sys (h ++ [c]) cs'
  end.

(** The listing of the interfaces; the closes. *)
Definition is_Interfaces (c : Call) : bool :=
  match c with CInterfaces => true | _ => false end.

Definition is_close (c : Call) : bool :=
  match c with
  | CCloseUDP _ | CClosePacketConn _ _ => true
  | _ => false
  end.


(** The option a system call sets, its value, and whether it is made on
    the descriptor [fd]. *)
Definition sys_opt (c : Sys) : SockOpt :=
  match c with
  | UnixSetsockoptInt _ _ opt _ | WindowsSetsockoptInt _ _ opt _ => opt
  end.

Definition sys_value (c : Sys) : Z :=
  match c with
  | UnixSetsockoptInt _ _ _ v | WindowsSetsockoptInt _ _ _ v => v
  end.

Definition sys_on (fd : N) (c : Sys) : Prop :=
  match c with
  | UnixSetsockoptInt fd' _ _ _ => fd' = int_of_uintptr fd
  | WindowsSetsockoptInt fd' _ _ _ => fd' = fd
  end.

(** Whether a call is a group join. *)
Definition is_JoinGroup (c : Call) : bool :=
  match c with CJoinGroup _ _ _ _ => true | _ => false end.

(** The zero value [UDPConn{}], with descriptor [s] standing for the
    zero [net.UDPConn]. *)
Definition zero_UDPConn (s : Socket) : UDPConn := mkUDPConn s "" [] None None.

(** A kernel that knows [SO_REUSEADDR] and [SO_REUSEPORT] but not
    [SO_REUSEPORT_LB]. *)
Definition old_kernel (h : list Sys) (c : Sys) : option error :=
  match sys_opt c with
  | SO_REUSEPORT_LB => Some (errorString "protocol not available")
  | _ => None
  end.


(** A machine on which the address is taken, and a machine on which the
    interfaces cannot be listed. *)
Definition busy_host : OS :=
  mkOS "linux"
    (fun _ _ _ => inr (errorString "bind: address already in use"))
    (fun _ => inl [lo; eth0]) (host_result (fun _ => false)).
Definition blind_host : OS :=
  mkOS "linux" (fun _ _ _ => inl 3%nat)
    (fun _ => inr (errorString "netlinkrib: permission denied"))
    (host_result (fun _ => false)).


(** ** Laws of the computations *)

Section Properties.

Variable os : OS.

Lemma bind_ret {A B} (a : A) (k : A -> M B) (h : list Call) :
  bind (ret a) k h = k a h.
Proof.
  unfold bind, ret. rewrite app_nil_r. destruct (k a h); reflexivity.
Qed.

Lemma bind_call {B} (c : Call) (k : option error -> M B) (h : list Call) :
  bind (call os c) k h =
  match k (result os h c) (h ++ [c]) with
  | Ret b cs => Ret b (c :: cs)
  | Panic msg => Panic msg
  end.
Proof. reflexivity. Qed.

Lemma bind_Ret {A B} (m : M A) (k : A -> M B) h a cs b cs' :
  m h = Ret a cs -> k a (h ++ cs) = Ret b cs' ->
  bind m k h = Ret b (cs ++ cs').
Proof. intros Hm Hk. unfold bind. rewrite Hm, Hk. reflexivity. Qed.

Lemma live_handle_v4 c f s :
  live_handle c = Some (f, s) -> (network c =? "udp4") = true ->
  f = IPv4 /\ ipv4conn c = Some s.
Proof.
  unfold live_handle. intros H E. rewrite E in H.
  destruct (ipv4conn c); simpl in H; [|discriminate].
  injection H as <- <-. split; reflexivity.
Qed.

Lemma live_handle_v6 c f s :
  live_handle c = Some (f, s) -> (network c =? "udp4") = false ->
  (network c =? "udp6") = true /\ f = IPv6 /\ ipv6conn c = Some s.
Proof.
  unfold live_handle. intros H E. rewrite E in H.
  destruct (network c =? "udp6"); [|discriminate].
  destruct (ipv6conn c); simpl in H; [|discriminate].
  injection H as <- <-. repeat split; reflexivity.
Qed.

(** ** Opening: the checks on the arguments *)

(** C7. A nil bind address, and any network other than "udp4" and "udp6",
    is refused with an argument error before anything is asked of the
    operating system: the open makes no call at all, so no socket is
    created, and returns no connection. *)
Theorem ListenMulticastUDPIfaces_rejects_arguments :
  forall (network : string) (ifaces : option (list Interface))
         (addr : option UDPAddr) (h : list Call),
    (addr = None ->
     ListenMulticastUDPIfaces os network ifaces addr h =
     Ret (None, Some (errorString "multicast: addr cannot be nil")) []) /\
    (addr <> None -> network <> "udp4" -> network <> "udp6" ->
     ListenMulticastUDPIfaces os network ifaces addr h =
     Ret (None,
          Some (errorString
                  ("network must be either 'udp4' or 'udp6': " ++ network)%string))
         []).
Proof.
  intros nw ifs addr h. split.
  - intros ->. reflexivity.
  - intros Ha H4 H6. destruct addr as [a|]; [|contradiction].
    unfold ListenMulticastUDPIfaces.
    apply String.eqb_neq in H4. apply String.eqb_neq in H6.
    rewrite H4, H6. reflexivity.
Qed.

(** ** Sending: the empty payload *)

(** C6. With a destination address, sending an empty payload does nothing
    and is no error: whatever the connection, no call is made (no
    interface selection, no send), the connection is left as it was and
    the error is nil. *)
Theorem WriteToMulticast_empty_payload :
  forall (c : UDPConn) (addr : UDPAddr) (h : list Call),
    WriteToMulticast os c [] (Some addr) h = Ret (c, None) [].
Proof. intros c addr h. reflexivity. Qed.

(** ** The interface enumerator *)

Lemma land_bit (x : N) (n : N) :
  negb (N.land x (N.shiftl 1 n) =? 0)%N = N.testbit x n.
Proof.
  destruct (N.testbit x n) eqn:E.
  - apply negb_true_iff, N.eqb_neq. intros H.
    assert (T : N.testbit (N.land x (N.shiftl 1 n)) n = false)
      by (rewrite H; apply N.bits_0).
    rewrite N.land_spec, E, N.shiftl_1_l, N.pow2_bits_true in T.
    discriminate.
  - apply negb_false_iff, N.eqb_eq. apply N.bits_inj. intros m.
    rewrite N.land_spec, N.bits_0, N.shiftl_1_l.
    destruct (N.eq_dec n m) as [<-|Hm].
    + rewrite E. reflexivity.
    + rewrite (N.pow2_bits_false n m Hm). apply andb_false_r.
Qed.

Lemma up_and_multicast_bits (ifi : Interface) :
  up_and_multicast ifi = is_up ifi && is_multicast ifi.
Proof.
  unfold up_and_multicast, is_up, is_multicast, FlagUp, FlagMulticast.
  rewrite !land_bit. reflexivity.
Qed.

Lemma eligible_loop_filter l :
  forall mifaces,
    eligible_loop l mifaces =
    mifaces ++ filter (fun ifi => is_up ifi && is_multicast ifi) l.
Proof.
  induction l as [|ifi l IH]; intros mifaces; simpl.
  - symmetry. apply app_nil_r.
  - rewrite <- up_and_multicast_bits.
    destruct (up_and_multicast ifi); rewrite IH; [|reflexivity].
    rewrite <- app_assoc. reflexivity.
Qed.

Lemma multicastInterfaces_result (h : list Call) :
  multicastInterfaces os h =
  Ret match net_Interfaces os h with
      | inl l => (filter (fun ifi => is_up ifi && is_multicast ifi) l, None)
      | inr err => ([], Some err)
      end [CInterfaces].
Proof.
  unfold multicastInterfaces, Interfaces, bind, ret.
  destruct (net_Interfaces os h) as [l|err]; [|reflexivity].
  rewrite eligible_loop_filter. reflexivity.
Qed.

(** C8. The enumerator asks the operating system for its interfaces once
    and makes no other call. From the list it gets it keeps, in the order
    of that list, exactly the interfaces that have both the up flag and
    the multicast flag; when the listing fails it returns that error. *)
Theorem multicastInterfaces_filters :
  forall (h : list Call),
    match net_Interfaces os h with
    | inl l =>
        multicastInterfaces os h =
        Ret (filter (fun ifi => is_up ifi && is_multicast ifi) l, None)
            [CInterfaces]
    | inr err => multicastInterfaces os h = Ret ([], Some err) [CInterfaces]
    end.
Proof.
  intros h. rewrite multicastInterfaces_result.
  destruct (net_Interfaces os h); reflexivity.
Qed.

(** ** Joining one interface *)

Lemma set_ifaces_same c : set_ifaces c (ifaces c) = c.
Proof. destruct c; reflexivity. Qed.

Lemma JoinMulticastGroup_live c f s iface gaddr h :
  live_handle c = Some (f, s) ->
  JoinMulticastGroup os c (Some iface) (Some gaddr) h =
  Ret (match result os h (CJoinGroup f s iface gaddr) with
       | None => (set_ifaces c (ifaces c ++ [iface]), None)
       | Some e => (c, Some e)
       end) [CJoinGroup f s iface gaddr].
Proof.
  intros Hl. unfold JoinMulticastGroup.
  destruct (network c =? "udp4") eqn:E4.
  - destruct (live_handle_v4 c f s Hl E4) as [-> Hc]. rewrite Hc. simpl.
    rewrite bind_call.
    destruct (result os h (CJoinGroup IPv4 s iface gaddr)); reflexivity.
  - destruct (live_handle_v6 c f s Hl E4) as (E6 & -> & Hc).
    rewrite E6, Hc. simpl. rewrite bind_call.
    destruct (result os h (CJoinGroup IPv6 s iface gaddr)); reflexivity.
Qed.

(** C4. On a connection whose handle for its network is there, a join with
    an interface and a group address makes one call, the group join of
    that handle. If the join succeeds the interface is appended to the
    members, which grow by exactly one, and the error is nil; if it fails
    its error is returned as it is and the connection, members included,
    is unchanged. *)
Theorem JoinMulticastGroup_appends_or_fails :
  forall (c : UDPConn) (f : Family) (s : Socket) (iface : Interface)
         (gaddr : UDPAddr) (h : list Call),
    live_handle c = Some (f, s) ->
    match result os h (CJoinGroup f s iface gaddr) with
    | None =>
        JoinMulticastGroup os c (Some iface) (Some gaddr) h =
        Ret (set_ifaces c (ifaces c ++ [iface]), None)
            [CJoinGroup f s iface gaddr]
        /\ List.length (ifaces c ++ [iface]) = S (List.length (ifaces c))
    | Some e =>
        JoinMulticastGroup os c (Some iface) (Some gaddr) h =
        Ret (c, Some e) [CJoinGroup f s iface gaddr]
    end.
Proof.
  intros c f s iface gaddr h Hl.
  rewrite (JoinMulticastGroup_live c f s iface gaddr h Hl).
  destruct (result os h (CJoinGroup f s iface gaddr)); [reflexivity|].
  split; [reflexivity|]. rewrite length_app. simpl. lia.
Qed.

(** ** Joining the candidates of an open *)

Lemma failures_cons c r rs :
  failures ((c, r) :: rs) =
  match r with Some e => e :: failures rs | None => failures rs end.
Proof. destruct r; reflexivity. Qed.

Lemma join_loop_live :
  forall (l : list Interface) (c : UDPConn) (f : Family) (s : Socket)
         (g : UDPAddr) (errs : option error) (fails : Z) (h : list Call),
    live_handle c = Some (f, s) ->
    let rs := replay os h (join_calls f s g l) in
    join_loop os c (Some g) l errs fails h =
    Ret (set_ifaces c (ifaces c ++ joined rs),
         join_each (map Some (failures rs)) errs,
         (fails + Z.of_nat (List.length (failures rs)))%Z)
        (join_calls f s g l).
Proof.
  induction l as [|i l IH]; intros c f s g errs fails h Hl rs.
  - subst rs. simpl. unfold ret. rewrite app_nil_r, set_ifaces_same.
    rewrite Z.add_0_r. reflexivity.
  - subst rs. cbn [join_loop join_calls map replay].
    unfold bind at 1. rewrite (JoinMulticastGroup_live c f s i g h Hl).
    rewrite failures_cons.
    destruct (result os h (CJoinGroup f s i g)) as [e|]; cbn iota beta zeta.
    + rewrite (IH c f s g _ _ _ Hl). cbn [app].
      f_equal. f_equal. unfold join_calls. rewrite length_cons. lia.
    + assert (Hl' : live_handle (set_ifaces c (ifaces c ++ [i])) = Some (f, s))
        by exact Hl.
      rewrite (IH _ f s g _ _ _ Hl'). cbn [ifaces set_ifaces app joined flat_map].
      rewrite <- app_assoc. reflexivity.
Qed.

Lemma replay_length h cs : List.length (replay os h cs) = List.length cs.
Proof.
  revert h. induction cs as [|c cs IH]; intros h; simpl; [reflexivity|].
  rewrite IH. reflexivity.
Qed.

Lemma failures_length_le rs :
  (List.length (failures rs) <= List.length rs)%nat.
Proof.
  induction rs as [|[c r] rs IH]; [apply Nat.le_refl|].
  rewrite failures_cons. destruct r; simpl; lia.
Qed.

Lemma failures_all rs :
  Forall (fun r => snd r <> None) rs ->
  List.length (failures rs) = List.length rs.
Proof.
  induction 1 as [|[c r] rs Hr _ IH]; [reflexivity|].
  rewrite failures_cons. destruct r; [simpl; lia|]. simpl in Hr. contradiction.
Qed.

Lemma failures_In rs e :
  In e (failures rs) <-> exists c, In (c, Some e) rs.
Proof.
  induction rs as [|[c r] rs IH]; [split; [intros []|intros [? []]]|].
  rewrite failures_cons. split.
  - destruct r as [e'|].
    + intros [->|H]; [exists c; left; reflexivity|].
      apply IH in H as [c' H]. exists c'. right. exact H.
    + intros H. apply IH in H as [c' H]. exists c'. right. exact H.
  - intros [c' [H|H]].
    + injection H as -> ->. left. reflexivity.
    + assert (In e (failures rs)) by (apply IH; exists c'; exact H).
      destruct r; [right|]; assumption.
Qed.

Lemma wraps_refl e : wraps e e.
Proof. destruct e; left; reflexivity. Qed.

Lemma wraps_join es e0 e :
  In e0 es -> wraps e0 e -> wraps (joinError es) e.
Proof.
  intros Hin Hw. unfold wraps. simpl. right.
  apply in_flat_map. exists e0. split; assumption.
Qed.

Lemma wraps_wrap msg e0 e : wraps e0 e -> wraps (wrapError msg e0) e.
Proof. intros Hw. unfold wraps. simpl. right. exact Hw. Qed.

Lemma join_each_acc es a e :
  wraps a e ->
  exists err, join_each (map Some es) (Some a) = Some err /\ wraps err e.
Proof.
  revert a. induction es as [|e0 es IH]; intros a Hw.
  - exists a. split; [reflexivity|exact Hw].
  - simpl. apply IH. apply (wraps_join _ a); [left; reflexivity|exact Hw].
Qed.

Lemma join_each_wraps es acc e :
  In e es ->
  exists err, join_each (map Some es) acc = Some err /\ wraps err e.
Proof.
  revert acc. induction es as [|e0 es IH]; intros acc Hin; [destruct Hin|].
  destruct Hin as [->|Hin]; [|apply IH; exact Hin].
  simpl. destruct acc as [a|]; apply join_each_acc.
  - apply (wraps_join _ e); [right; left; reflexivity|apply wraps_refl].
  - apply (wraps_join _ e); [left; reflexivity|apply wraps_refl].
Qed.

Lemma joinIfaces_live c f s g l h :
  live_handle c = Some (f, s) ->
  let rs := replay os h (join_calls f s g l) in
  joinIfaces os c l (Some g) h =
  Ret (set_ifaces c (ifaces c ++ joined rs),
       fst (join_verdict rs (List.length l)),
       snd (join_verdict rs (List.length l)))
      (join_calls f s g l).
Proof.
  intros Hl rs. unfold joinIfaces, bind.
  rewrite (join_loop_live l c f s g None 0 h Hl). fold rs.
  cbn iota beta zeta. unfold join_verdict.
  assert (Hle : (List.length (failures rs) <= List.length l)%nat).
  { pose proof (failures_length_le rs) as H. unfold rs in H at 2.
    rewrite replay_length in H. unfold join_calls in H.
    rewrite length_map in H. exact H. }
  destruct (Nat.eqb_spec (List.length (failures rs)) (List.length l)) as [E|E].
  - rewrite E, Z.add_0_l, Z.eqb_refl. unfold ret. rewrite app_nil_r.
    reflexivity.
  - replace (0 + Z.of_nat (List.length (failures rs)) =? Z.of_nat (List.length l))%Z
      with false by (symmetry; apply Z.eqb_neq; lia).
    destruct (failures rs) as [|e es] eqn:Ef.
    + simpl. unfold ret. rewrite app_nil_r. reflexivity.
    + destruct (join_each_wraps (e :: es) None e (or_introl eq_refl))
        as (err & He & _).
      rewrite He.
      replace (0 + Z.of_nat (List.length (e :: es)) <? Z.of_nat (List.length l))%Z
        with true by (symmetry; apply Z.ltb_lt; lia).
      simpl. unfold ret. rewrite app_nil_r. reflexivity.
Qed.


(** ** Closing *)

Lemma Close_calls (c : UDPConn) (h : list Call) :
  Close os c h =
  Ret (set_ipv6conn (set_ipv4conn c None) None,
       join_each (map snd (replay os h (close_calls c))) None)
      (close_calls c).
Proof.
  unfold Close, close_calls.
  destruct c as [s nw l [p4|] [p6|]]; cbn [ipv4conn ipv6conn sock];
    unfold bind, ret, call; cbn; rewrite ?app_nil_r; reflexivity.
Qed.

(** ** Opening: bind, candidates, joins *)

Lemma family_of_cases nw f :
  family_of nw = Some f ->
  (nw = "udp4" /\ f = IPv4) \/ (nw = "udp6" /\ f = IPv6).
Proof.
  unfold family_of. destruct (String.eqb_spec nw "udp4") as [->|_].
  - intros [= <-]. left. split; reflexivity.
  - destruct (String.eqb_spec nw "udp6") as [->|_]; [|discriminate].
    intros [= <-]. right. split; reflexivity.
Qed.

Lemma enumerate_candidates h ifaces cands pre :
  candidates os h ifaces = Some (cands, pre) ->
  match ifaces with
  | None => multicastInterfaces os
  | Some l => ret (l, None)
  end h = Ret (cands, None) pre.
Proof.
  unfold candidates. destruct ifaces as [l|].
  - intros [= <- <-]. reflexivity.
  - rewrite multicastInterfaces_result.
    destruct (net_Interfaces os h) as [l|e]; [|discriminate].
    intros [= <- <-]. reflexivity.
Qed.

(** The handles an open gives a connection of family [f] on socket [s]. *)
Lemma ListenMulticastUDPIfaces_joins nw f a ifs h s cands pre :
  family_of nw = Some f ->
  net_ListenUDP os h nw a = inl s ->
  candidates os (h ++ [CListenUDP nw a]) ifs = Some (cands, pre) ->
  let rs := replay os ((h ++ [CListenUDP nw a]) ++ pre) (join_calls f s a cands) in
  let c := mkUDPConn s nw (cands ++ joined rs)
             (match f with IPv4 => Some s | IPv6 => None end)
             (match f with IPv4 => None | IPv6 => Some s end) in
  ListenMulticastUDPIfaces os nw ifs (Some a) h =
  match join_verdict rs (List.length cands) with
  | (false, Some e) =>
      Ret (None, Some e)
          (CListenUDP nw a :: pre ++ join_calls f s a cands
             ++ [CClosePacketConn f s; CCloseUDP s])
  | _ => Ret (Some c, None) (CListenUDP nw a :: pre ++ join_calls f s a cands)
  end.
Proof.
  intros Hf Hs Hc rs c. unfold ListenMulticastUDPIfaces.
  assert (Hnw : negb ((nw =? "udp4") || (nw =? "udp6")) = false)
    by (destruct (family_of_cases nw f Hf) as [[-> _]|[-> _]]; reflexivity).
  rewrite Hnw. unfold bind at 1, ListenUDP. rewrite Hs.
  unfold bind at 1. rewrite (enumerate_candidates _ _ _ _ Hc).
  cbn iota beta zeta.
  set (c0 := mkUDPConn s nw cands _ _).
  assert (Hl : live_handle c0 = Some (f, s))
    by (destruct (family_of_cases nw f Hf) as [[-> ->]|[-> ->]]; reflexivity).
  unfold bind at 1. rewrite (joinIfaces_live c0 f s a cands _ Hl). fold rs.
  assert (Hc0 : set_ifaces c0 (ifaces c0 ++ joined rs) = c)
    by (destruct (family_of_cases nw f Hf) as [[-> ->]|[-> ->]]; reflexivity).
  rewrite Hc0.
  destruct (join_verdict rs (List.length cands)) as [[|] [e|]];
    cbn [fst snd]; unfold ret; rewrite ?app_nil_r; try reflexivity.
  unfold bind. rewrite Close_calls.
  assert (Hcc : close_calls c = [CClosePacketConn f s; CCloseUDP s])
    by (destruct f; reflexivity).
  rewrite Hcc. reflexivity.
Qed.

(** ** Sending through every member *)

Lemma fan_out_wcm f s buf a wcm wcm' l :
  per_packet_ifindex os = true ->
  fan_out os f s buf a wcm l = fan_out os f s buf a wcm' l.
Proof.
  intros Hp. unfold fan_out, wcm_for. rewrite Hp. reflexivity.
Qed.

Lemma fan_out_cons f s buf a wcm i l :
  fan_out os f s buf a wcm (i :: l) =
  (if per_packet_ifindex os then [] else [CSetMulticastInterface f s i])
  ++ CWriteTo f s buf (wcm_for os wcm i) a :: fan_out os f s buf a wcm l.
Proof. unfold fan_out. simpl. rewrite <- app_assoc. reflexivity. Qed.

Lemma write_loop_live f s buf a :
  forall (l : list Interface) (wcm : ControlMessage) (errs : list error)
         (h : list Call),
    write_loop os f (Some s) buf a l wcm errs h =
    Ret (errs ++ failures (replay os h (fan_out os f s buf a wcm l)))
        (fan_out os f s buf a wcm l).
Proof.
  induction l as [|i l IH]; intros wcm errs h.
  - simpl. unfold ret. rewrite app_nil_r. reflexivity.
  - rewrite fan_out_cons. cbn [write_loop on_handle]. unfold wcm_for.
    destruct (per_packet_ifindex os) eqn:Hp.
    + rewrite bind_ret. cbn iota beta zeta. rewrite bind_call.
      cbn [app replay]. rewrite failures_cons.
      rewrite (fan_out_wcm f s buf a wcm (mkControlMessage (Index i)) l Hp).
      destruct (result os h (CWriteTo f s buf (mkControlMessage (Index i)) a));
        rewrite IH; [rewrite <- app_assoc|]; reflexivity.
    + unfold bind at 1. unfold bind at 1. unfold call at 1.
      cbn [app replay]. rewrite !failures_cons.
      destruct (result os h (CSetMulticastInterface f s i)) as [e|];
        unfold ret at 1; cbn [app]; cbn iota beta zeta;
        rewrite bind_call;
        destruct (result os (h ++ [CSetMulticastInterface f s i])
                    (CWriteTo f s buf wcm a));
        rewrite IH; rewrite <- ?app_assoc; reflexivity.
Qed.

Lemma WriteToMulticast_live c f s buf a h :
  live_handle c = Some (f, s) -> buf <> [] ->
  WriteToMulticast os c buf (Some a) h =
  Ret (c,
       errors_Join
         (map Some
            (failures
               (replay os h
                  (fan_out os f s buf a (mkControlMessage 0) (ifaces c))))))
      (fan_out os f s buf a (mkControlMessage 0) (ifaces c)).
Proof.
  intros Hl Hb. unfold WriteToMulticast.
  destruct buf as [|b buf]; [contradiction|]. cbn [List.length Nat.eqb].
  destruct (network c =? "udp4") eqn:E4.
  - destruct (live_handle_v4 c f s Hl E4) as [-> Hc]. rewrite Hc.
    unfold bind. rewrite write_loop_live. unfold ret.
    rewrite app_nil_r. reflexivity.
  - destruct (live_handle_v6 c f s Hl E4) as (E6 & -> & Hc). rewrite E6, Hc.
    unfold bind. rewrite write_loop_live. unfold ret.
    rewrite app_nil_r. reflexivity.
Qed.


Lemma non_nil_Some es : non_nil (map Some es) = es.
Proof. induction es as [|e es IH]; simpl; [|rewrite IH]; reflexivity. Qed.

Lemma referenced_Join es : referenced (errors_Join (map Some es)) = es.
Proof.
  unfold errors_Join. rewrite non_nil_Some. destruct es; reflexivity.
Qed.

Lemma Join_nil_iff es : errors_Join (map Some es) = None <-> es = [].
Proof.
  unfold errors_Join. rewrite non_nil_Some.
  destruct es; split; intros H; try reflexivity; discriminate.
Qed.

Lemma failures_nil_iff rs :
  failures rs = [] <-> Forall (fun r => snd r = None) rs.
Proof.
  induction rs as [|[c r] rs IH]; [split; [constructor|reflexivity]|].
  rewrite failures_cons. destruct r as [e|]; split.
  - discriminate.
  - intros H. inversion H as [|? ? Hr]. discriminate Hr.
  - intros H. constructor; [reflexivity|apply IH; exact H].
  - intros H. inversion H; subst. apply IH. assumption.
Qed.

(** Failures split by the kind of the call, for kinds that do not overlap
    and cover the calls at hand. *)
Lemma failures_split (p q : Call -> bool) rs :
  Forall (fun r => xorb (p (fst r)) (q (fst r)) = true) rs ->
  List.length (failures rs) = (count_failed p rs + count_failed q rs)%nat.
Proof.
  unfold count_failed.
  induction 1 as [|[c r] rs Hx _ IH]; [reflexivity|].
  rewrite failures_cons. cbn [filter fst].
  change (failed (c, r)) with (match r with Some _ => true | None => false end).
  simpl in Hx.
  destruct r as [e|]; rewrite ?andb_false_r; [|exact IH].
  rewrite !andb_true_r.
  destruct (p c), (q c); try discriminate; cbn [List.length]; rewrite IH; lia.
Qed.

Lemma count_failed_none (p : Call -> bool) rs :
  Forall (fun r => p (fst r) = false) rs -> count_failed p rs = 0%nat.
Proof.
  unfold count_failed. induction 1 as [|r rs Hp _ IH]; [reflexivity|].
  simpl. rewrite Hp. exact IH.
Qed.

Lemma Forall_replay (P : Call -> Prop) h cs :
  Forall P cs -> Forall (fun r => P (fst r)) (replay os h cs).
Proof.
  intros H. revert h. induction H as [|c cs Hc _ IH]; intros h; simpl;
    constructor; [exact Hc|apply IH].
Qed.

Lemma fan_out_kinds f s buf a wcm l :
  Forall (fun c => xorb (is_WriteTo c) (is_SetMulticastInterface c) = true)
         (fan_out os f s buf a wcm l).
Proof.
  induction l as [|i l IH]; [constructor|].
  rewrite fan_out_cons.
  destruct (per_packet_ifindex os); repeat constructor; exact IH.
Qed.

Lemma fan_out_sends f s buf a wcm l :
  filter is_WriteTo (fan_out os f s buf a wcm l) =
  map (fun ifi => CWriteTo f s buf (wcm_for os wcm ifi) a) l.
Proof.
  induction l as [|i l IH]; [reflexivity|].
  rewrite fan_out_cons.
  destruct (per_packet_ifindex os); simpl; rewrite IH; reflexivity.
Qed.

Lemma fan_out_no_selection f s buf a wcm l :
  per_packet_ifindex os = true ->
  Forall (fun c => is_SetMulticastInterface c = false)
         (fan_out os f s buf a wcm l).
Proof.
  intros Hp. induction l as [|i l IH]; [constructor|].
  rewrite fan_out_cons, Hp. constructor; [reflexivity|exact IH].
Qed.

(** C2, as the code has it. On a connection whose handle for its network
    is there, a send of a non-empty payload to an address makes exactly
    the calls of [fan_out]: for every member, in the order of the members,
    one send (preceded by an interface selection on the platforms that
    have no per-packet interface index), whatever failed before. The
    error joins the failures of all these calls, selections included: it
    references as many errors as sends failed plus selections failed, and
    is nil exactly when every call succeeded. Where the platform takes
    the interface index per packet there is no selection, and the count
    is the number of failed sends. *)
Theorem WriteToMulticast_fan_out :
  forall (c : UDPConn) (f : Family) (s : Socket) (buf : list N)
         (a : UDPAddr) (h : list Call),
    live_handle c = Some (f, s) -> buf <> [] ->
    let wcm := mkControlMessage 0 in
    let cs := fan_out os f s buf a wcm (ifaces c) in
    let rs := replay os h cs in
    exists err : option error,
      WriteToMulticast os c buf (Some a) h = Ret (c, err) cs /\
      filter is_WriteTo cs =
        map (fun ifi => CWriteTo f s buf (wcm_for os wcm ifi) a) (ifaces c) /\
      List.length (filter is_WriteTo cs) = List.length (ifaces c) /\
      referenced err = failures rs /\
      List.length (referenced err) =
        (count_failed is_WriteTo rs
         + count_failed is_SetMulticastInterface rs)%nat /\
      (err = None <-> Forall (fun r => snd r = None) rs) /\
      (per_packet_ifindex os = true ->
       count_failed is_SetMulticastInterface rs = 0%nat).
Proof.
  intros c f s buf a h Hl Hb wcm cs rs.
  exists (errors_Join (map Some (failures rs))).
  split; [exact (WriteToMulticast_live c f s buf a h Hl Hb)|].
  split; [apply fan_out_sends|].
  split; [unfold cs; rewrite fan_out_sends; apply length_map|].
  rewrite referenced_Join.
  split; [reflexivity|].
  split.
  { apply failures_split.
    apply (Forall_replay
             (fun c => xorb (is_WriteTo c) (is_SetMulticastInterface c) = true)).
    apply fan_out_kinds. }
  split; [rewrite Join_nil_iff; apply failures_nil_iff|].
  intros Hp. apply count_failed_none.
  apply (Forall_replay (fun c => is_SetMulticastInterface c = false)).
  apply fan_out_no_selection. exact Hp.
Qed.


(** ** Opening: the verdict on the joins *)

(** C3. An open that binds its socket and whose joins all fail, be the
    candidates given by the caller or enumerated, fails: after the joins
    it closes the handle and the socket, returns no connection, and the
    error it returns wraps the error of every join. *)
Theorem ListenMulticastUDPIfaces_total_failure :
  forall (nw : string) (f : Family) (a : UDPAddr)
         (ifs : option (list Interface)) (h : list Call) (s : Socket)
         (cands : list Interface) (pre : list Call),
    family_of nw = Some f ->
    net_ListenUDP os h nw a = inl s ->
    candidates os (h ++ [CListenUDP nw a]) ifs = Some (cands, pre) ->
    let joins := join_calls f s a cands in
    let rs := replay os ((h ++ [CListenUDP nw a]) ++ pre) joins in
    Forall (fun r => snd r <> None) rs ->
    exists err : error,
      ListenMulticastUDPIfaces os nw ifs (Some a) h =
      Ret (None, Some err)
          (CListenUDP nw a :: pre ++ joins
             ++ [CClosePacketConn f s; CCloseUDP s]) /\
      forall (c : Call) (e : error), In (c, Some e) rs -> wraps err e.
Proof.
  intros nw f a ifs h s cands pre Hf Hs Hc joins rs Hall.
  rewrite (ListenMulticastUDPIfaces_joins nw f a ifs h s cands pre Hf Hs Hc).
  fold joins. fold rs. unfold join_verdict.
  assert (Hk : List.length (failures rs) = List.length cands).
  { rewrite (failures_all rs Hall). unfold rs, joins, join_calls.
    rewrite replay_length. apply length_map. }
  rewrite Hk, Nat.eqb_refl. eexists. split; [reflexivity|].
  intros c e Hin.
  assert (He : In e (failures rs)) by (apply failures_In; exists c; exact Hin).
  destruct (join_each_wraps (failures rs) None e He) as (err & -> & Hw).
  apply wraps_wrap. exact Hw.
Qed.

(** C10. An open with an empty list of interfaces that is not nil, on a
    network that is valid and an address that binds, fails: no join is
    attempted, the handle and the socket are closed, no connection is
    returned, and the error is the one of the total failure, "failed to
    join any interface". *)
Theorem ListenMulticastUDPIfaces_no_candidates :
  forall (nw : string) (f : Family) (a : UDPAddr) (h : list Call)
         (s : Socket),
    family_of nw = Some f ->
    net_ListenUDP os h nw a = inl s ->
    ListenMulticastUDPIfaces os nw (Some []) (Some a) h =
    Ret (None,
         Some (errorString "udp: failed to join any interface: %!w(<nil>)"))
        [CListenUDP nw a; CClosePacketConn f s; CCloseUDP s].
Proof.
  intros nw f a h s Hf Hs.
  rewrite (ListenMulticastUDPIfaces_joins nw f a (Some []) h s [] []
             Hf Hs eq_refl).
  reflexivity.
Qed.

(** When some joins fail and some succeed the open returns a connection
    and a nil error; the members are the candidates followed by the
    interfaces that joined. *)
Lemma ListenMulticastUDPIfaces_partial_failure nw f a ifs h s cands pre :
  family_of nw = Some f ->
  net_ListenUDP os h nw a = inl s ->
  candidates os (h ++ [CListenUDP nw a]) ifs = Some (cands, pre) ->
  let rs := replay os ((h ++ [CListenUDP nw a]) ++ pre)
              (join_calls f s a cands) in
  List.length (failures rs) <> List.length cands ->
  exists c : UDPConn,
    ListenMulticastUDPIfaces os nw ifs (Some a) h =
    Ret (Some c, None) (CListenUDP nw a :: pre ++ join_calls f s a cands) /\
    ifaces c = cands ++ joined rs.
Proof.
  intros Hf Hs Hc rs Hk.
  rewrite (ListenMulticastUDPIfaces_joins nw f a ifs h s cands pre Hf Hs Hc).
  fold rs. unfold join_verdict.
  apply Nat.eqb_neq in Hk. rewrite Hk.
  destruct (List.length (failures rs) =? 0)%nat;
    eexists; split; reflexivity.
Qed.


(** ** The handles between open and close *)

Lemma same_handles_refl c : same_handles c c.
Proof. repeat split. Qed.

Lemma same_handles_live c c' :
  same_handles c c' -> live_handle c' = live_handle c.
Proof.
  intros (_ & Hn & H4 & H6). unfold live_handle. rewrite Hn, H4, H6.
  reflexivity.
Qed.

Lemma same_handles_inv c c' : same_handles c c' -> conn_inv c -> conn_inv c'.
Proof.
  intros (_ & Hn & H4 & H6). unfold conn_inv. rewrite Hn, H4, H6. tauto.
Qed.

Lemma same_handles_trans c1 c2 c3 :
  same_handles c1 c2 -> same_handles c2 c3 -> same_handles c1 c3.
Proof.
  intros (A1 & A2 & A3 & A4) (B1 & B2 & B3 & B4).
  repeat split; congruence.
Qed.

Lemma SetMulticastTTL_live c f s ttl h :
  live_handle c = Some (f, s) ->
  exists err cs, SetMulticastTTL os c ttl h = Ret (c, err) cs.
Proof.
  intros Hl. unfold SetMulticastTTL.
  destruct (network c =? "udp4") eqn:E4.
  - destruct (live_handle_v4 c f s Hl E4) as [_ Hc]. rewrite Hc.
    do 2 eexists. reflexivity.
  - destruct (live_handle_v6 c f s Hl E4) as (E6 & _ & Hc). rewrite E6, Hc.
    do 2 eexists. reflexivity.
Qed.

Lemma SetMulticastLoopback_live c f s on h :
  live_handle c = Some (f, s) ->
  exists err cs, SetMulticastLoopback os c on h = Ret (c, err) cs.
Proof.
  intros Hl. unfold SetMulticastLoopback.
  destruct (network c =? "udp4") eqn:E4.
  - destruct (live_handle_v4 c f s Hl E4) as [_ Hc]. rewrite Hc.
    do 2 eexists. reflexivity.
  - destruct (live_handle_v6 c f s Hl E4) as (E6 & _ & Hc). rewrite E6, Hc.
    do 2 eexists. reflexivity.
Qed.

Lemma step_live c f s op h :
  live_handle c = Some (f, s) ->
  exists c' err cs,
    step os c op h = Ret (c', err) cs /\ same_handles c c'.
Proof.
  intros Hl. destruct op as [iface gaddr|ttl|hoplim|on|buf addr]; simpl.
  - destruct iface as [i|];
      [|do 3 eexists; split; [reflexivity|apply same_handles_refl]].
    destruct gaddr as [g|];
      [|do 3 eexists; split; [reflexivity|apply same_handles_refl]].
    rewrite (JoinMulticastGroup_live c f s i g h Hl).
    destruct (result os h (CJoinGroup f s i g));
      do 3 eexists; (split; [reflexivity|]); repeat split.
  - destruct (SetMulticastTTL_live c f s ttl h Hl) as (err & cs & ->).
    do 3 eexists; split; [reflexivity|apply same_handles_refl].
  - unfold SetMulticastHopLimit.
    destruct (SetMulticastTTL_live c f s hoplim h Hl) as (err & cs & ->).
    do 3 eexists; split; [reflexivity|apply same_handles_refl].
  - destruct (SetMulticastLoopback_live c f s on h Hl) as (err & cs & ->).
    do 3 eexists; split; [reflexivity|apply same_handles_refl].
  - destruct addr as [a|];
      [|do 3 eexists; split; [reflexivity|apply same_handles_refl]].
    destruct buf as [|b buf];
      [do 3 eexists; split; [reflexivity|apply same_handles_refl]|].
    rewrite (WriteToMulticast_live c f s (b :: buf) a h Hl); [|discriminate].
    do 3 eexists; split; [reflexivity|apply same_handles_refl].
Qed.

Lemma run_live ops :
  forall c f s h,
    live_handle c = Some (f, s) ->
    exists c' cs, run os c ops h = Ret c' cs /\ same_handles c c'.
Proof.
  induction ops as [|op ops IH]; intros c f s h Hl.
  - exists c, []. split; [reflexivity|apply same_handles_refl].
  - destruct (step_live c f s op h Hl) as (c1 & err & cs1 & Hs & H1).
    assert (Hl1 : live_handle c1 = Some (f, s))
      by (rewrite (same_handles_live c c1 H1); exact Hl).
    destruct (IH c1 f s (h ++ cs1) Hl1) as (c2 & cs2 & Hr & H2).
    exists c2, (cs1 ++ cs2). split.
    + cbn [run]. apply (bind_Ret _ _ h (c1, err) cs1 c2 cs2 Hs). exact Hr.
    + exact (same_handles_trans c c1 c2 H1 H2).
Qed.

(** A connection that an open returns: its network is the one asked for,
    a valid one, its only handle is the one of that network, and the
    error returned with it is nil. *)
Lemma ListenMulticastUDPIfaces_returns nw ifs addr h c warn cs :
  ListenMulticastUDPIfaces os nw ifs addr h = Ret (Some c, warn) cs ->
  exists f s,
    family_of nw = Some f /\ network c = nw /\ sock c = s /\
    ipv4conn c = match f with IPv4 => Some s | IPv6 => None end /\
    ipv6conn c = match f with IPv4 => None | IPv6 => Some s end /\
    warn = None.
Proof.
  destruct addr as [a|]; [|discriminate].
  destruct (family_of nw) as [f|] eqn:Hf.
  2:{ unfold ListenMulticastUDPIfaces. unfold family_of in Hf.
      destruct (nw =? "udp4"); [discriminate|].
      destruct (nw =? "udp6"); discriminate. }
  destruct (net_ListenUDP os h nw a) as [s|e] eqn:Hs.
  2:{ unfold ListenMulticastUDPIfaces.
      destruct (family_of_cases nw f Hf) as [[-> _]|[-> _]];
        cbn [String.eqb Ascii.eqb Bool.eqb orb negb];
        unfold bind, ListenUDP; rewrite Hs; discriminate. }
  destruct (candidates os (h ++ [CListenUDP nw a]) ifs) as [[cands pre]|]
    eqn:Hc.
  - rewrite (ListenMulticastUDPIfaces_joins nw f a ifs h s cands pre Hf Hs Hc).
    destruct (join_verdict _ _) as [[|] [e|]]; intros [= <- <- <-];
      exists f, s; repeat split; assumption.
  - unfold candidates in Hc. destruct ifs as [l|]; [discriminate|].
    destruct (net_Interfaces os (h ++ [CListenUDP nw a])) as [l|e] eqn:Hi;
      [discriminate|].
    unfold ListenMulticastUDPIfaces.
    destruct (family_of_cases nw f Hf) as [[-> _]|[-> _]];
      cbn [String.eqb Ascii.eqb Bool.eqb orb negb];
      unfold bind at 1, ListenUDP; rewrite Hs;
      unfold bind at 1; rewrite multicastInterfaces_result, Hi;
      discriminate.
Qed.

(** C9. The connection an open returns has exactly one control handle,
    the one of its network, which is the network asked for: the IPv4
    handle if and only if that is "udp4", the IPv6 handle if and only if
    it is "udp6". Every program of joins, TTL or hop-limit settings,
    loopback settings and sends run on it afterwards returns, without a
    panic, a connection of which the same holds, with the same network. *)
Theorem handles_match_network :
  forall (nw : string) (ifs : option (list Interface))
         (addr : option UDPAddr) (h : list Call) (c : UDPConn)
         (warn : option error) (cs : list Call) (ops : list Op),
    ListenMulticastUDPIfaces os nw ifs addr h = Ret (Some c, warn) cs ->
    network c = nw /\ conn_inv c /\
    exists (c' : UDPConn) (cs' : list Call),
      run os c ops (h ++ cs) = Ret c' cs' /\
      network c' = nw /\ conn_inv c'.
Proof.
  intros nw ifs addr h c warn cs ops Hopen.
  destruct (ListenMulticastUDPIfaces_returns _ _ _ _ _ _ _ Hopen)
    as (f & s & Hf & Hn & _ & H4 & H6 & _).
  assert (Hinv : conn_inv c).
  { unfold conn_inv. rewrite H4, H6, Hn.
    destruct (family_of_cases nw f Hf) as [[-> ->]|[-> ->]];
      repeat split; intros; congruence. }
  assert (Hl : live_handle c = Some (f, s)).
  { unfold live_handle. rewrite H4, H6, Hn.
    destruct (family_of_cases nw f Hf) as [[-> ->]|[-> ->]]; reflexivity. }
  split; [exact Hn|]. split; [exact Hinv|].
  destruct (run_live ops c f s (h ++ cs) Hl) as (c' & cs' & Hr & Hsame).
  exists c', cs'. split; [exact Hr|]. split.
  - destruct Hsame as (_ & Hn' & _). congruence.
  - exact (same_handles_inv c c' Hsame Hinv).
Qed.


(** ** Closing twice *)

(** C5, as the code has it. Closing a connection twice never panics. The
    first close leaves both control handles nil, so the second close
    closes no handle; but it closes the socket again, which the first
    close had closed already, and its error is the join of whatever that
    second close of the socket returns. *)
Theorem Close_twice :
  forall (c : UDPConn) (h : list Call),
    exists (c1 : UDPConn) (e1 e2 : option error) (cs1 : list Call),
      Close os c h = Ret (c1, e1) cs1 /\
      In (CCloseUDP (sock c)) cs1 /\
      ipv4conn c1 = None /\ ipv6conn c1 = None /\
      Close os c1 (h ++ cs1) = Ret (c1, e2) [CCloseUDP (sock c)] /\
      e2 = errors_Join [None; result os (h ++ cs1) (CCloseUDP (sock c))].
Proof.
  intros c h.
  exists (set_ipv6conn (set_ipv4conn c None) None).
  exists (join_each (map snd (replay os h (close_calls c))) None).
  exists (errors_Join [None; result os (h ++ close_calls c) (CCloseUDP (sock c))]).
  exists (close_calls c).
  split; [apply Close_calls|].
  split.
  { unfold close_calls. apply in_or_app. right. apply in_or_app. right.
    left. reflexivity. }
  split; [reflexivity|]. split; [reflexivity|].
  split; [|reflexivity].
  rewrite Close_calls. reflexivity.
Qed.


(** ** Further properties: arguments and failures of an open *)

(** X1. A nil argument is refused before the connection is looked at:
    whatever the connection (a zero value, a closed one), a join with a
    nil interface or a nil group address, and a send with a nil address
    whatever the payload, return their argument error, make no call and
    leave the connection as it was. The interface is checked before the
    group address. *)
Theorem nil_arguments_refused :
  forall (c : UDPConn) (i : Interface) (gaddr : option UDPAddr)
         (buf : list N) (h : list Call),
    JoinMulticastGroup os c None gaddr h =
      Ret (c, Some (errorString "multicast: interface cannot be nil")) [] /\
    JoinMulticastGroup os c (Some i) None h =
      Ret (c, Some (errorString "multicast: group address cannot be nil")) [] /\
    WriteToMulticast os c buf None h =
      Ret (c, Some (errorString "multicast: address cannot be nil")) [].
Proof. intros c i gaddr buf h. repeat split. Qed.

Lemma valid_network nw f :
  family_of nw = Some f -> negb ((nw =? "udp4") || (nw =? "udp6")) = false.
Proof.
  intros Hf. destruct (family_of_cases nw f Hf) as [[-> _]|[-> _]];
    reflexivity.
Qed.

(** X2. When the bind fails the open returns the error of the bind as it
    is and no connection; the bind is the only call it made: nothing is
    listed, joined or closed. *)
Theorem ListenMulticastUDPIfaces_bind_failure :
  forall (nw : string) (f : Family) (ifs : option (list Interface))
         (a : UDPAddr) (h : list Call) (e : error),
    family_of nw = Some f ->
    net_ListenUDP os h nw a = inr e ->
    ListenMulticastUDPIfaces os nw ifs (Some a) h =
    Ret (None, Some e) [CListenUDP nw a].
Proof.
  intros nw f ifs a h e Hf He. unfold ListenMulticastUDPIfaces.
  rewrite (valid_network nw f Hf). unfold bind, ListenUDP. rewrite He.
  reflexivity.
Qed.

(** X3. When no list is given and the listing of the interfaces fails
    after a successful bind, the open returns no connection and an error
    that wraps the error of the listing. Its calls are the bind and the
    listing only: the socket it has just bound is not closed. *)
Theorem ListenMulticastUDPIfaces_listing_failure :
  forall (nw : string) (f : Family) (a : UDPAddr) (h : list Call)
         (s : Socket) (e : error),
    family_of nw = Some f ->
    net_ListenUDP os h nw a = inl s ->
    net_Interfaces os (h ++ [CListenUDP nw a]) = inr e ->
    exists err : error,
      ListenMulticastUDPIfaces os nw None (Some a) h =
      Ret (None, Some err) [CListenUDP nw a; CInterfaces] /\
      wraps err e /\
      Error err =
        ("multicast: failed to get multicast interfaces: " ++ Error e)%string.
Proof.
  intros nw f a h s e Hf Hs He. eexists. split; [|split].
  - unfold ListenMulticastUDPIfaces. rewrite (valid_network nw f Hf).
    unfold bind at 1, ListenUDP. rewrite Hs.
    unfold bind at 1. rewrite multicastInterfaces_result, He. reflexivity.
  - apply wraps_wrap, wraps_refl.
  - reflexivity.
Qed.

Lemma Forall_join_calls (P : Call -> Prop) f s g l :
  (forall i, P (CJoinGroup f s i g)) -> Forall P (join_calls f s g l).
Proof.
  intros H. unfold join_calls. apply Forall_forall. intros c Hc.
  apply in_map_iff in Hc as (i & <- & _). apply H.
Qed.

(** The shapes an open can take, by cases on its arguments and on what
    the operating system answers. *)
Lemma ListenMulticastUDPIfaces_cases nw ifs addr h :
  (exists e, ListenMulticastUDPIfaces os nw ifs addr h = Ret (None, Some e) [])
  \/ (exists a e,
        addr = Some a /\
        ListenMulticastUDPIfaces os nw ifs addr h =
        Ret (None, Some e) [CListenUDP nw a])
  \/ (exists a e,
        addr = Some a /\ ifs = None /\
        ListenMulticastUDPIfaces os nw ifs addr h =
        Ret (None, Some e) [CListenUDP nw a; CInterfaces])
  \/ (exists a f s cands pre r tail,
        addr = Some a /\ family_of nw = Some f /\
        net_ListenUDP os h nw a = inl s /\
        candidates os (h ++ [CListenUDP nw a]) ifs = Some (cands, pre) /\
        ListenMulticastUDPIfaces os nw ifs addr h =
        Ret r (CListenUDP nw a :: pre ++ join_calls f s a cands ++ tail) /\
        ((exists c, r = (Some c, None) /\ tail = []) \/
         (exists e, r = (None, Some e) /\
                    tail = [CClosePacketConn f s; CCloseUDP s]))).
Proof.
  destruct addr as [a|]; [|left; eexists; reflexivity].
  destruct (family_of nw) as [f|] eqn:Hf.
  2:{ left. unfold ListenMulticastUDPIfaces. unfold family_of in Hf.
      destruct (nw =? "udp4"); [discriminate|].
      destruct (nw =? "udp6"); [discriminate|]. eexists. reflexivity. }
  destruct (net_ListenUDP os h nw a) as [s|e] eqn:Hs.
  2:{ right. left. exists a, e. split; [reflexivity|].
      unfold ListenMulticastUDPIfaces. rewrite (valid_network nw f Hf).
      unfold bind, ListenUDP. rewrite Hs. reflexivity. }
  destruct (candidates os (h ++ [CListenUDP nw a]) ifs) as [[cands pre]|]
    eqn:Hc.
  - right. right. right.
    pose proof (ListenMulticastUDPIfaces_joins nw f a ifs h s cands pre
                  Hf Hs Hc) as H. cbn zeta in H.
    destruct (join_verdict _ _) as [[|] [e|]];
      do 7 eexists;
      (split; [reflexivity|]); (split; [reflexivity|]);
      (split; [exact Hs|]); (split; [exact Hc|]).
    1,2,4:
      refine (conj _ (or_introl (ex_intro _ _ (conj eq_refl eq_refl))));
      rewrite app_nil_r; exact H.
    refine (conj _ (or_intror (ex_intro _ _ (conj eq_refl eq_refl))));
      exact H.
  - right. right. left. unfold candidates in Hc.
    destruct ifs as [l|]; [discriminate|].
    destruct (net_Interfaces os (h ++ [CListenUDP nw a])) as [l|e] eqn:Hi;
      [discriminate|].
    exists a. eexists. split; [reflexivity|]. split; [reflexivity|].
    unfold ListenMulticastUDPIfaces. rewrite (valid_network nw f Hf).
    unfold bind at 1, ListenUDP. rewrite Hs.
    unfold bind at 1. rewrite multicastInterfaces_result, Hi. reflexivity.
Qed.

(** X4. An open never panics, and it returns either a connection and a
    nil error or no connection and an error: never both, never neither. *)
Theorem ListenMulticastUDPIfaces_connection_or_error :
  forall (nw : string) (ifs : option (list Interface))
         (addr : option UDPAddr) (h : list Call),
    exists (r : option UDPConn * option error) (cs : list Call),
      ListenMulticastUDPIfaces os nw ifs addr h = Ret r cs /\
      ((exists c, r = (Some c, None)) \/ (exists e, r = (None, Some e))).
Proof.
  intros nw ifs addr h.
  destruct (ListenMulticastUDPIfaces_cases nw ifs addr h)
    as [[e H]|[(a & e & _ & H)|[(a & e & _ & _ & H)|
        (a & f & s & cands & pre & r & tail & _ & _ & _ & _ & H & Hr)]]].
  1-3: do 2 eexists; split; [exact H|right; eexists; reflexivity].
  do 2 eexists. split; [exact H|].
  destruct Hr as [(c & -> & _)|(e & -> & _)];
    [left|right]; eexists; reflexivity.
Qed.

(** X5. An open that is given a list of interfaces never asks the
    operating system for its interfaces, the list be empty or not and
    the open succeed or fail. *)
Theorem ListenMulticastUDPIfaces_explicit_list_no_listing :
  forall (nw : string) (l : list Interface) (addr : option UDPAddr)
         (h : list Call) (r : option UDPConn * option error)
         (cs : list Call),
    ListenMulticastUDPIfaces os nw (Some l) addr h = Ret r cs ->
    Forall (fun c => is_Interfaces c = false) cs.
Proof.
  intros nw l addr h r cs Hopen.
  destruct (ListenMulticastUDPIfaces_cases nw (Some l) addr h)
    as [[e H]|[(a & e & _ & H)|[(a & e & _ & Hn & _)|
        (a & f & s & cands & pre & r' & tail & _ & _ & _ & Hc & H & Hr)]]].
  - rewrite H in Hopen. injection Hopen as _ <-. constructor.
  - rewrite H in Hopen. injection Hopen as _ <-. repeat constructor.
  - discriminate Hn.
  - rewrite H in Hopen. injection Hopen as _ <-.
    injection Hc as <- <-. constructor; [reflexivity|].
    cbn [app]. apply Forall_app. split.
    + apply Forall_join_calls. reflexivity.
    + destruct Hr as [(c & _ & ->)|(e & _ & ->)]; repeat constructor.
Qed.


Lemma failures_short_iff rs :
  List.length (failures rs) <> List.length rs <->
  Exists (fun r => snd r = None) rs.
Proof.
  induction rs as [|[c r] rs IH].
  - split; [intros H; contradiction H; reflexivity|intros H; inversion H].
  - rewrite failures_cons. destruct r as [e|]; cbn [List.length].
    + split.
      * intros H. apply Exists_cons_tl, IH. lia.
      * intros H. inversion H as [? ? Hr|? ? Ht]; subst;
          [discriminate Hr|]. apply IH in Ht. lia.
    + split; [intros _; apply Exists_cons_hd; reflexivity|].
      intros _. pose proof (failures_length_le rs). lia.
Qed.

(** X6. Once the socket is bound and the candidates are known, an open
    returns a connection if and only if the join of at least one
    candidate succeeds; with no candidate at all it fails. *)
Theorem ListenMulticastUDPIfaces_succeeds_iff_one_join :
  forall (nw : string) (f : Family) (a : UDPAddr)
         (ifs : option (list Interface)) (h : list Call) (s : Socket)
         (cands : list Interface) (pre : list Call),
    family_of nw = Some f ->
    net_ListenUDP os h nw a = inl s ->
    candidates os (h ++ [CListenUDP nw a]) ifs = Some (cands, pre) ->
    let rs := replay os ((h ++ [CListenUDP nw a]) ++ pre)
                (join_calls f s a cands) in
    (exists (c : UDPConn) (cs : list Call),
       ListenMulticastUDPIfaces os nw ifs (Some a) h = Ret (Some c, None) cs)
    <-> Exists (fun r => snd r = None) rs.
Proof.
  intros nw f a ifs h s cands pre Hf Hs Hc rs.
  rewrite (ListenMulticastUDPIfaces_joins nw f a ifs h s cands pre Hf Hs Hc).
  fold rs. rewrite <- failures_short_iff.
  assert (Hn : List.length rs = List.length cands).
  { unfold rs, join_calls. rewrite replay_length. apply length_map. }
  rewrite Hn. unfold join_verdict.
  destruct (Nat.eqb_spec (List.length (failures rs)) (List.length cands))
    as [E|E].
  - split; [intros (c & cs & H); discriminate H|intros H; contradiction].
  - split; [intros _; exact E|intros _].
    destruct (List.length (failures rs) =? 0)%nat; do 2 eexists; reflexivity.
Qed.

Lemma is_close_join_calls f s g l :
  Forall (fun c => is_close c = false) (join_calls f s g l).
Proof. apply Forall_join_calls. reflexivity. Qed.

(** X7. Once the socket is bound and the candidates are known, an open
    attempts the join of every candidate, in the order of the
    candidates, whatever the earlier joins returned; if it closes
    anything it does so after the last join. *)
Theorem ListenMulticastUDPIfaces_joins_every_candidate :
  forall (nw : string) (f : Family) (a : UDPAddr)
         (ifs : option (list Interface)) (h : list Call) (s : Socket)
         (cands : list Interface) (pre : list Call),
    family_of nw = Some f ->
    net_ListenUDP os h nw a = inl s ->
    candidates os (h ++ [CListenUDP nw a]) ifs = Some (cands, pre) ->
    exists (r : option UDPConn * option error) (tail : list Call),
      ListenMulticastUDPIfaces os nw ifs (Some a) h =
      Ret r (CListenUDP nw a :: pre
               ++ map (fun ifi => CJoinGroup f s ifi a) cands ++ tail) /\
      Forall (fun c => is_close c = true) tail.
Proof.
  intros nw f a ifs h s cands pre Hf Hs Hc.
  rewrite (ListenMulticastUDPIfaces_joins nw f a ifs h s cands pre Hf Hs Hc).
  fold (join_calls f s a cands).
  destruct (join_verdict _ _) as [[|] [e|]].
  1,2,4: exists (Some (mkUDPConn s nw
                   (cands ++ joined (replay os ((h ++ [CListenUDP nw a]) ++ pre)
                                       (join_calls f s a cands)))
                   (match f with IPv4 => Some s | IPv6 => None end)
                   (match f with IPv4 => None | IPv6 => Some s end)), None),
                [];
    rewrite app_nil_r; split; [reflexivity|constructor].
  exists (None, Some e), [CClosePacketConn f s; CCloseUDP s].
  split; [reflexivity|repeat constructor].
Qed.

(** ** Further properties: the members *)

Lemma step_members c f s op h :
  live_handle c = Some (f, s) ->
  exists c' err cs extra,
    step os c op h = Ret (c', err) cs /\ same_handles c c' /\
    ifaces c' = ifaces c ++ extra /\ (List.length extra <= 1)%nat.
Proof.
  intros Hl.
  assert (Hsame : forall err cs,
            step os c op h = Ret (c, err) cs ->
            exists c' err cs extra,
              step os c op h = Ret (c', err) cs /\ same_handles c c' /\
              ifaces c' = ifaces c ++ extra /\ (List.length extra <= 1)%nat).
  { intros err cs H. exists c, err, cs, []. split; [exact H|].
    split; [apply same_handles_refl|]. rewrite app_nil_r.
    split; [reflexivity|apply Nat.le_0_1]. }
  destruct op as [iface gaddr|ttl|hoplim|on|buf addr]; cbn [step] in *.
  - destruct iface as [i|]; [|eapply Hsame; reflexivity].
    destruct gaddr as [g|]; [|eapply Hsame; reflexivity].
    rewrite (JoinMulticastGroup_live c f s i g h Hl) in *.
    destruct (result os h (CJoinGroup f s i g)); [eapply Hsame; reflexivity|].
    do 3 eexists. exists [i]. split; [reflexivity|].
    split; [repeat split|]. split; [reflexivity|apply Nat.le_refl].
  - destruct (SetMulticastTTL_live c f s ttl h Hl) as (err & cs & H).
    eapply Hsame; exact H.
  - unfold SetMulticastHopLimit in *.
    destruct (SetMulticastTTL_live c f s hoplim h Hl) as (err & cs & H).
    eapply Hsame; exact H.
  - destruct (SetMulticastLoopback_live c f s on h Hl) as (err & cs & H).
    eapply Hsame; exact H.
  - destruct addr as [a|]; [|eapply Hsame; reflexivity].
    destruct buf as [|b buf]; [eapply Hsame; reflexivity|].
    eapply Hsame.
    apply (WriteToMulticast_live c f s (b :: buf) a h Hl). discriminate.
Qed.

(** X8. Between open and close the members only grow: after any program
    of joins, settings and sends the members are the members before
    followed by at most one new member per operation; nothing is removed
    or reordered, and the socket is the same. *)
Theorem members_only_grow :
  forall (ops : list Op) (c : UDPConn) (f : Family) (s : Socket)
         (h : list Call),
    live_handle c = Some (f, s) ->
    exists (c' : UDPConn) (cs : list Call) (extra : list Interface),
      run os c ops h = Ret c' cs /\
      ifaces c' = ifaces c ++ extra /\
      (List.length extra <= List.length ops)%nat /\
      sock c' = sock c.
Proof.
  induction ops as [|op ops IH]; intros c f s h Hl.
  - exists c, [], []. rewrite app_nil_r. repeat split. apply Nat.le_refl.
  - destruct (step_members c f s op h Hl)
      as (c1 & err & cs1 & x1 & Hs & H1 & Hx1 & Hn1).
    assert (Hl1 : live_handle c1 = Some (f, s))
      by (rewrite (same_handles_live c c1 H1); exact Hl).
    destruct (IH c1 f s (h ++ cs1) Hl1) as (c2 & cs2 & x2 & Hr & Hx2 & Hn2 & Hs2).
    exists c2, (cs1 ++ cs2), (x1 ++ x2). split; [|split; [|split]].
    + cbn [run]. apply (bind_Ret _ _ h (c1, err) cs1 c2 cs2 Hs). exact Hr.
    + rewrite Hx2, Hx1, app_assoc. reflexivity.
    + rewrite length_app. cbn [List.length]. lia.
    + destruct H1 as (Hsock & _). congruence.
Qed.


(** ** Further properties: closing *)

Lemma join_each_Some rs a :
  exists err,
    join_each rs (Some a) = Some err /\ forall x, wraps a x -> wraps err x.
Proof.
  revert a. induction rs as [|r rs IH]; intros a.
  - exists a. split; [reflexivity|auto].
  - cbn [join_each fold_left].
    assert (Hj : exists es, errors_Join [Some a; r] = Some (joinError (a :: es)))
      by (destruct r; eexists; reflexivity).
    destruct Hj as (es & ->).
    destruct (IH (joinError (a :: es))) as (err & He & Hw).
    exists err. split; [exact He|]. intros x Hx. apply Hw.
    apply (wraps_join _ a); [left; reflexivity|exact Hx].
Qed.

Lemma join_each_None_iff rs :
  join_each rs None = None <-> Forall (fun r => r = None) rs.
Proof.
  induction rs as [|r rs IH]; [split; [constructor|reflexivity]|].
  cbn [join_each fold_left]. destruct r as [e|].
  - change (errors_Join [None; Some e]) with (Some (joinError [e])).
    destruct (join_each_Some rs (joinError [e])) as (err & He & _).
    unfold join_each in He. rewrite He.
    split; [discriminate|]. intros H. inversion H as [|? ? Hr]. discriminate Hr.
  - change (errors_Join [None; None]) with (@None error).
    split; [intros H; constructor; [reflexivity|apply IH, H]|].
    intros H. inversion H; subst. apply IH. assumption.
Qed.

Lemma join_each_In rs acc e :
  In (Some e) rs -> exists err, join_each rs acc = Some err /\ wraps err e.
Proof.
  revert acc. induction rs as [|r rs IH]; intros acc Hin; [destruct Hin|].
  cbn [join_each fold_left]. destruct Hin as [->|Hin]; [|apply IH, Hin].
  assert (Hj : exists es, errors_Join [acc; Some e] = Some (joinError es)
                          /\ In e es).
  { destruct acc; eexists; (split; [reflexivity|]);
      [right; left|left]; reflexivity. }
  destruct Hj as (es & -> & Hes).
  destruct (join_each_Some rs (joinError es)) as (err & He & Hw).
  exists err. split; [exact He|]. apply Hw.
  apply (wraps_join es e e Hes), wraps_refl.
Qed.

(** X9. A close never panics and never stops early: whatever the
    connection, it closes each handle that is there and then the socket,
    even when an earlier close failed, and leaves both handles nil and
    the rest of the connection as it was. Its error is nil exactly when
    every one of these closes succeeded, and otherwise wraps the error
    of each close that failed. *)
Theorem Close_aggregates :
  forall (c : UDPConn) (h : list Call),
    exists (c' : UDPConn) (err : option error),
      Close os c h = Ret (c', err) (close_calls c) /\
      ipv4conn c' = None /\ ipv6conn c' = None /\
      sock c' = sock c /\ network c' = network c /\ ifaces c' = ifaces c /\
      (err = None <->
       Forall (fun r => snd r = None) (replay os h (close_calls c))) /\
      (forall (call : Call) (e : error),
         In (call, Some e) (replay os h (close_calls c)) ->
         exists err', err = Some err' /\ wraps err' e).
Proof.
  intros c h. do 2 eexists. split; [apply Close_calls|].
  repeat (split; [reflexivity|]). split.
  - rewrite join_each_None_iff, Forall_map. reflexivity.
  - intros call e Hin. apply join_each_In.
    apply in_map_iff. exists (call, Some e). split; [reflexivity|exact Hin].
Qed.

(** X10. A session releases what it acquired: on the connection an open
    returned, after any program of joins, settings and sends, a close
    makes exactly two calls, the close of the handle of the network asked
    for and then the close of the connection's socket. *)
Theorem Close_after_session :
  forall (nw : string) (ifs : option (list Interface))
         (addr : option UDPAddr) (h h' : list Call) (c c' : UDPConn)
         (warn : option error) (cs cs' : list Call) (ops : list Op),
    ListenMulticastUDPIfaces os nw ifs addr h = Ret (Some c, warn) cs ->
    run os c ops (h ++ cs) = Ret c' cs' ->
    exists (f : Family) (c'' : UDPConn) (err : option error),
      family_of nw = Some f /\
      Close os c' h' =
      Ret (c'', err) [CClosePacketConn f (sock c); CCloseUDP (sock c)].
Proof.
  intros nw ifs addr h h' c c' warn cs cs' ops Hopen Hrun.
  destruct (ListenMulticastUDPIfaces_returns _ _ _ _ _ _ _ Hopen)
    as (f & s & Hf & Hn & Hs & H4 & H6 & _).
  assert (Hl : live_handle c = Some (f, s)).
  { unfold live_handle. rewrite H4, H6, Hn.
    destruct (family_of_cases nw f Hf) as [[-> ->]|[-> ->]]; reflexivity. }
  destruct (run_live ops c f s (h ++ cs) Hl) as (c1 & cs1 & Hr & Hsame).
  rewrite Hrun in Hr. injection Hr as <- <-.
  destruct Hsame as (Hs' & _ & H4' & H6').
  exists f. do 2 eexists. split; [exact Hf|].
  rewrite Close_calls. unfold close_calls. rewrite H4', H6', Hs', H4, H6, Hs.
  destruct f; reflexivity.
Qed.


(** ** Further properties: settings, odd connections, accessors *)

(** X11. On a connection whose handle for its network is there, setting
    the multicast TTL makes one call and returns its error as it is: the
    TTL setter of the IPv4 handle on "udp4", the hop-limit setter of the
    IPv6 handle on "udp6". Setting the hop limit does exactly the same,
    and neither changes the connection. *)
Theorem SetMulticastTTL_per_family :
  forall (c : UDPConn) (f : Family) (s : Socket) (ttl : Z) (h : list Call),
    live_handle c = Some (f, s) ->
    let setter :=
      match f with
      | IPv4 => CSetMulticastTTL s ttl
      | IPv6 => CSetMulticastHopLimit s ttl
      end in
    SetMulticastTTL os c ttl h = Ret (c, result os h setter) [setter] /\
    SetMulticastHopLimit os c ttl h = Ret (c, result os h setter) [setter].
Proof.
  intros c f s ttl h Hl setter.
  assert (H : SetMulticastTTL os c ttl h = Ret (c, result os h setter) [setter]).
  { unfold SetMulticastTTL.
    destruct (network c =? "udp4") eqn:E4.
    - destruct (live_handle_v4 c f s Hl E4) as [Hf Hc]. subst setter.
      rewrite Hc, Hf. reflexivity.
    - destruct (live_handle_v6 c f s Hl E4) as (E6 & Hf & Hc). subst setter.
      rewrite E6, Hc, Hf. reflexivity. }
  split; exact H.
Qed.

(** X12. On a connection whose handle for its network is there, setting
    the multicast loopback makes one call, the loopback setter of that
    handle with the value given, returns its error as it is and does not
    change the connection. *)
Theorem SetMulticastLoopback_per_family :
  forall (c : UDPConn) (f : Family) (s : Socket) (on : bool)
         (h : list Call),
    live_handle c = Some (f, s) ->
    SetMulticastLoopback os c on h =
    Ret (c, result os h (CSetMulticastLoopback f s on))
        [CSetMulticastLoopback f s on].
Proof.
  intros c f s on h Hl. unfold SetMulticastLoopback.
  destruct (network c =? "udp4") eqn:E4.
  - destruct (live_handle_v4 c f s Hl E4) as [-> Hc]. rewrite Hc. reflexivity.
  - destruct (live_handle_v6 c f s Hl E4) as (E6 & -> & Hc).
    rewrite E6, Hc. reflexivity.
Qed.

Lemma family_of_None nw :
  family_of nw = None -> (nw =? "udp4") = false /\ (nw =? "udp6") = false.
Proof.
  unfold family_of. destruct (nw =? "udp4"); [discriminate|].
  destruct (nw =? "udp6"); [discriminate|]. split; reflexivity.
Qed.

(** X13. On a connection whose network is neither "udp4" nor "udp6", as
    the zero value of the type is, every operation that reaches its
    switch panics with "unreachable": a join with an interface and a
    group address, the TTL, hop-limit and loopback settings, and a send
    of a non-empty payload to an address. *)
Theorem unreachable_on_unknown_network :
  forall (c : UDPConn) (i : Interface) (g a : UDPAddr) (ttl : Z)
         (on : bool) (buf : list N) (h : list Call),
    family_of (network c) = None ->
    buf <> [] ->
    JoinMulticastGroup os c (Some i) (Some g) h = Panic "unreachable" /\
    SetMulticastTTL os c ttl h = Panic "unreachable" /\
    SetMulticastHopLimit os c ttl h = Panic "unreachable" /\
    SetMulticastLoopback os c on h = Panic "unreachable" /\
    WriteToMulticast os c buf (Some a) h = Panic "unreachable".
Proof.
  intros c i g a ttl on buf h Hn Hb.
  destruct (family_of_None _ Hn) as [E4 E6].
  unfold JoinMulticastGroup, SetMulticastHopLimit, SetMulticastTTL,
    SetMulticastLoopback, WriteToMulticast.
  destruct buf as [|b buf]; [contradiction|].
  cbn [List.length Nat.eqb]. rewrite E4, E6. repeat split.
Qed.

(** X14. On a connection of a valid network that has no members, a send
    to an address makes no call and returns a nil error, whatever the
    payload and whether or not the handles are there. *)
Theorem WriteToMulticast_no_members :
  forall (c : UDPConn) (f : Family) (buf : list N) (a : UDPAddr)
         (h : list Call),
    family_of (network c) = Some f ->
    ifaces c = [] ->
    WriteToMulticast os c buf (Some a) h = Ret (c, None) [].
Proof.
  intros c f buf a h Hf Hi. unfold WriteToMulticast. rewrite Hi.
  destruct (List.length buf =? 0)%nat; [reflexivity|].
  destruct (family_of_cases _ _ Hf) as [[-> _]|[-> _]]; reflexivity.
Qed.

Lemma copy_make (l : list Interface) :
  copy (make_Interfaces (List.length l)) l = l.
Proof.
  unfold copy, make_Interfaces. rewrite repeat_length, Nat.min_id.
  rewrite firstn_all, skipn_all2, app_nil_r; [reflexivity|].
  rewrite repeat_length. apply Nat.le_refl.
Qed.



(** ** Further properties: the verdict of [joinIfaces] *)

Lemma joined_failures_length rs :
  Forall (fun r => is_JoinGroup (fst r) = true) rs ->
  (List.length (joined rs) + List.length (failures rs))%nat = List.length rs.
Proof.
  induction 1 as [|[c r] rs Hc _ IH]; [reflexivity|].
  rewrite failures_cons. unfold joined in *. cbn [flat_map].
  rewrite length_app.
  destruct c; try discriminate Hc. destruct r; cbn [List.length]; lia.
Qed.

Lemma joined_all f s g l :
  forall h,
    Forall (fun r => snd r = None) (replay os h (join_calls f s g l)) ->
    joined (replay os h (join_calls f s g l)) = l.
Proof.
  induction l as [|i l IH]; intros h H; [reflexivity|].
  cbn [join_calls map replay] in *. inversion H as [|? ? Hr Ht]; subst.
  cbn [snd] in Hr. cbn [joined flat_map]. rewrite Hr. cbn [app].
  f_equal. apply IH. exact Ht.
Qed.

(** X16. When some but not all of the joins fail, [joinIfaces] reports
    success together with a warning: the members grow by the interfaces
    that joined, as many as there were candidates less the failures, and
    the warning, whose text starts with the number of failures over the
    number of candidates, wraps the error of every join that failed. *)
Theorem joinIfaces_partial_warning :
  forall (c : UDPConn) (f : Family) (s : Socket) (g : UDPAddr)
         (l : list Interface) (h : list Call),
    live_handle c = Some (f, s) ->
    let rs := replay os h (join_calls f s g l) in
    let k := List.length (failures rs) in
    (0 < k < List.length l)%nat ->
    exists inner : error,
      joinIfaces os c l (Some g) h =
      Ret (set_ifaces c (ifaces c ++ joined rs), true,
           Some (wrapError
                   (("multicast: failed to join " ++ itoa (Z.of_nat k) ++ "/"
                     ++ itoa (Z.of_nat (List.length l)) ++ " interfaces: ")
                    ++ Error inner)%string inner))
          (join_calls f s g l) /\
      (List.length (joined rs) = List.length l - k)%nat /\
      forall (call : Call) (e : error), In (call, Some e) rs -> wraps inner e.
Proof.
  intros c f s g l h Hl rs k Hk.
  rewrite (joinIfaces_live c f s g l h Hl). fold rs. unfold join_verdict.
  fold k.
  replace (k =? List.length l)%nat with false
    by (symmetry; apply Nat.eqb_neq; lia).
  replace (k =? 0)%nat with false by (symmetry; apply Nat.eqb_neq; lia).
  destruct (failures rs) as [|e0 es] eqn:Ef; [simpl in k; lia|].
  destruct (join_each_wraps (e0 :: es) None e0 (or_introl eq_refl))
    as (inner & Hi & _).
  exists inner. rewrite Hi. split; [reflexivity|]. split.
  - assert (Hj : Forall (fun r => is_JoinGroup (fst r) = true) rs).
    { apply (Forall_replay (fun c => is_JoinGroup c = true)).
      apply Forall_join_calls. reflexivity. }
    pose proof (joined_failures_length rs Hj) as Hn.
    assert (Hr : List.length rs = List.length l)
      by (unfold rs, join_calls; rewrite replay_length; apply length_map).
    subst k. rewrite Ef in Hn. lia.
  - intros call e Hin.
    assert (He : In e (e0 :: es))
      by (rewrite <- Ef; apply failures_In; exists call; exact Hin).
    destruct (join_each_wraps (e0 :: es) None e He) as (inner' & Hi' & Hw).
    rewrite Hi in Hi'. injection Hi' as <-. exact Hw.
Qed.

(** X17. When there is at least one candidate and every join succeeds,
    [joinIfaces] reports success with a nil error, and the members grow
    by all the candidates, in their order. *)
Theorem joinIfaces_all_joined :
  forall (c : UDPConn) (f : Family) (s : Socket) (g : UDPAddr)
         (l : list Interface) (h : list Call),
    live_handle c = Some (f, s) ->
    l <> [] ->
    Forall (fun r => snd r = None) (replay os h (join_calls f s g l)) ->
    joinIfaces os c l (Some g) h =
    Ret (set_ifaces c (ifaces c ++ l), true, None) (join_calls f s g l).
Proof.
  intros c f s g l h Hl Hne Hall.
  rewrite (joinIfaces_live c f s g l h Hl). unfold join_verdict.
  rewrite (joined_all f s g l h Hall).
  apply failures_nil_iff in Hall. rewrite Hall. cbn [List.length].
  destruct l as [|i l]; [contradiction|]. reflexivity.
Qed.


End Properties.

(** ** The package on concrete hosts *)

(** The open of the scenario with network "udp5". *)
Lemma rejects_udp5 :
  Some wildcard <> None /\ "udp5" <> "udp4" /\ "udp5" <> "udp6" /\
  ListenMulticastUDPIfaces (host "linux" [lo; eth0] (fun _ => false))
    "udp5" None (Some wildcard) [] =
  Ret (None,
       Some (errorString "network must be either 'udp4' or 'udp6': udp5")) [].
Proof.
  assert (Ha : Some wildcard <> None) by discriminate.
  assert (H4 : "udp5" <> "udp4") by discriminate.
  assert (H6 : "udp5" <> "udp6") by discriminate.
  split; [exact Ha | split; [exact H4 | split; [exact H6 |]]].
  exact (proj2 (ListenMulticastUDPIfaces_rejects_arguments
                  (host "linux" [lo; eth0] (fun _ => false))
                  "udp5" None (Some wildcard) []) Ha H4 H6).
Defined.

(** C1, on the code. Two interfaces are given, [tun0], whose join fails,
    and [eth0], whose join succeeds: N = 2 and k = 1. The open succeeds,
    but the members are the two candidates followed by the interface that
    joined, three entries and not one, and the error returned with the
    connection is nil, although [joinIfaces] had built the warning. *)
Theorem ListenMulticastUDPIfaces_partial_failure_on_linux :
  ListenMulticastUDPIfaces linux_host "udp4" (Some [tun0; eth0])
    (Some mdns_group) [] =
  Ret (Some (mkUDPConn 3 "udp4" [tun0; eth0; eth0] (Some 3%nat) None), None)
      [CListenUDP "udp4" mdns_group; CJoinGroup IPv4 3 tun0 mdns_group;
       CJoinGroup IPv4 3 eth0 mdns_group]
  /\ joinIfaces linux_host (mkUDPConn 3 "udp4" [tun0; eth0] (Some 3%nat) None)
       [tun0; eth0] (Some mdns_group) [CListenUDP "udp4" mdns_group] =
     Ret (mkUDPConn 3 "udp4" [tun0; eth0; eth0] (Some 3%nat) None, true,
          Some (wrapError
                  "multicast: failed to join 1/2 interfaces: no such device"
                  (joinError [errorString "no such device"])))
         [CJoinGroup IPv4 3 tun0 mdns_group; CJoinGroup IPv4 3 eth0 mdns_group].
Proof. split; vm_compute; reflexivity. Qed.

(** C2 as stated fails where the outbound interface is selected on the
    socket: with one member whose selection and send both fail, one send
    is attempted and fails, and the error references two failures. *)
Lemma WriteToMulticast_counts_selection_failures :
  ~ (forall (err : option error) (cs : list Call),
       WriteToMulticast windows_host conn_eth0 ping (Some mdns_group) [] =
       Ret (conn_eth0, err) cs ->
       List.length (filter is_WriteTo cs) = List.length (ifaces conn_eth0) /\
       List.length (referenced err) =
       count_failed is_WriteTo (replay windows_host [] cs)).
Proof.
  intros H.
  destruct (H (Some (joinError [errorString "can't assign requested address";
                                errorString "network is unreachable"]))
              [CSetMulticastInterface IPv4 3 eth0;
               CWriteTo IPv4 3 ping (mkControlMessage 0) mdns_group]
              eq_refl) as [_ Hn].
  vm_compute in Hn. discriminate Hn.
Qed.

(** A send on Linux: one call, carrying the index of [eth0]. *)
Lemma WriteToMulticast_fan_out_on_linux :
  live_handle conn_eth0 = Some (IPv4, 3%nat) /\ ping <> [] /\
  exists err : option error,
    WriteToMulticast linux_host conn_eth0 ping (Some mdns_group) [] =
    Ret (conn_eth0, err)
        [CWriteTo IPv4 3 ping (mkControlMessage 2) mdns_group] /\
    List.length (referenced err) =
    count_failed is_WriteTo
      (replay linux_host []
         [CWriteTo IPv4 3 ping (mkControlMessage 2) mdns_group]).
Proof.
  assert (Hl : live_handle conn_eth0 = Some (IPv4, 3%nat)) by reflexivity.
  assert (Hb : ping <> []) by discriminate.
  split; [exact Hl|]. split; [exact Hb|].
  destruct (WriteToMulticast_fan_out linux_host conn_eth0 IPv4 3%nat ping
              mdns_group [] Hl Hb)
    as (err & Hw & _ & _ & _ & Hn & _ & Hp).
  exists err. split; [exact Hw|].
  rewrite Hn. rewrite (Hp eq_refl). apply Nat.add_0_r.
Defined.

(** An open on enumerated interfaces none of which can join. *)
Lemma total_failure_on_dead_host :
  exists err : error,
    ListenMulticastUDPIfaces dead_host "udp4" None (Some mdns_group) [] =
    Ret (None, Some err)
        [CListenUDP "udp4" mdns_group; CInterfaces;
         CJoinGroup IPv4 3 lo mdns_group; CJoinGroup IPv4 3 eth0 mdns_group;
         CClosePacketConn IPv4 3; CCloseUDP 3] /\
    wraps err (errorString "no such device").
Proof.
  destruct (ListenMulticastUDPIfaces_total_failure dead_host "udp4" IPv4
              mdns_group None [] 3%nat [lo; eth0] [CInterfaces]
              eq_refl eq_refl eq_refl)
    as (err & H & Hw).
  - repeat constructor; discriminate.
  - exists err. split; [exact H|].
    apply (Hw (CJoinGroup IPv4 3 lo mdns_group)). left. reflexivity.
Defined.

(** A join that succeeds and a join that fails on the same connection. *)
Lemma join_wlan0_on_linux :
  live_handle conn_eth0 = Some (IPv4, 3%nat) /\
  JoinMulticastGroup linux_host conn_eth0 (Some wlan0) (Some mdns_group) [] =
  Ret (mkUDPConn 3 "udp4" [eth0; wlan0] (Some 3%nat) None, None)
      [CJoinGroup IPv4 3 wlan0 mdns_group] /\
  JoinMulticastGroup linux_host conn_eth0 (Some tun0) (Some mdns_group) [] =
  Ret (conn_eth0, Some (errorString "no such device"))
      [CJoinGroup IPv4 3 tun0 mdns_group].
Proof.
  assert (Hl : live_handle conn_eth0 = Some (IPv4, 3%nat)) by reflexivity.
  split; [exact Hl|]. split.
  - exact (proj1 (JoinMulticastGroup_appends_or_fails linux_host conn_eth0
                    IPv4 3%nat wlan0 mdns_group [] Hl)).
  - exact (JoinMulticastGroup_appends_or_fails linux_host conn_eth0
             IPv4 3%nat tun0 mdns_group [] Hl).
Defined.

(** C5 as stated fails on the socket: the first close of an opened
    connection closes the socket, the second close closes it again and
    returns the error of that. *)
Lemma second_Close_closes_socket_again :
  ~ (forall (c : UDPConn) (warn : option error) (cs : list Call)
            (c1 c2 : UDPConn) (e1 e2 : option error) (cs1 cs2 : list Call),
       ListenMulticastUDPIfaces linux_host "udp4" (Some [eth0])
         (Some mdns_group) [] = Ret (Some c, warn) cs ->
       Close linux_host c cs = Ret (c1, e1) cs1 ->
       Close linux_host c1 (cs ++ cs1) = Ret (c2, e2) cs2 ->
       e2 = None \/ forall x : Call, In x cs2 -> ~ In x cs1).
Proof.
  intros H.
  destruct (H (mkUDPConn 3 "udp4" [eth0; eth0] (Some 3%nat) None) None
              [CListenUDP "udp4" mdns_group; CJoinGroup IPv4 3 eth0 mdns_group]
              (mkUDPConn 3 "udp4" [eth0; eth0] None None)
              (mkUDPConn 3 "udp4" [eth0; eth0] None None)
              (Some (joinError
                       [errorString "use of closed network connection"]))
              (Some (joinError
                       [errorString "use of closed network connection"]))
              [CClosePacketConn IPv4 3; CCloseUDP 3] [CCloseUDP 3]
              eq_refl eq_refl eq_refl) as [He|Hn].
  - discriminate He.
  - apply (Hn (CCloseUDP 3)); [left|right; left]; reflexivity.
Qed.

(** An open followed by a join, two settings and a send. *)
Lemma handles_after_a_session_on_linux :
  exists c' cs',
    run linux_host (mkUDPConn 3 "udp4" [eth0; eth0] (Some 3%nat) None)
      [OpJoin (Some lo) (Some mdns_group); OpSetLoopback true; OpSetTTL 1;
       OpWrite ping (Some mdns_group)]
      ([] ++ [CListenUDP "udp4" mdns_group; CJoinGroup IPv4 3 eth0 mdns_group])
    = Ret c' cs' /\ network c' = "udp4" /\ conn_inv c'.
Proof.
  exact (proj2 (proj2
    (handles_match_network linux_host "udp4" (Some [eth0]) (Some mdns_group)
       [] (mkUDPConn 3 "udp4" [eth0; eth0] (Some 3%nat) None) None
       [CListenUDP "udp4" mdns_group; CJoinGroup IPv4 3 eth0 mdns_group]
       [OpJoin (Some lo) (Some mdns_group); OpSetLoopback true; OpSetTTL 1;
        OpWrite ping (Some mdns_group)]
       eq_refl))).
Defined.

(** An IPv6 open with an empty list of interfaces. *)
Lemma no_candidates_on_linux :
  family_of "udp6" = Some IPv6 /\
  ListenMulticastUDPIfaces linux_host "udp6" (Some []) (Some wildcard) [] =
  Ret (None,
       Some (errorString "udp: failed to join any interface: %!w(<nil>)"))
      [CListenUDP "udp6" wildcard; CClosePacketConn IPv6 3; CCloseUDP 3].
Proof.
  split; [reflexivity|].
  exact (ListenMulticastUDPIfaces_no_candidates linux_host "udp6" IPv6
           wildcard [] 3%nat eq_refl eq_refl).
Defined.

(** ** Package [reuse] on its four targets *)



(** ** The further properties on concrete hosts *)

(** An open on an address that is taken. *)
Lemma bind_failure_on_busy_host :
  family_of "udp4" = Some IPv4 /\
  ListenMulticastUDPIfaces busy_host "udp4" None (Some mdns_group) [] =
  Ret (None, Some (errorString "bind: address already in use"))
      [CListenUDP "udp4" mdns_group].
Proof.
  split; [reflexivity|].
  exact (ListenMulticastUDPIfaces_bind_failure busy_host "udp4" IPv4 None
           mdns_group [] _ eq_refl eq_refl).
Defined.

(** An open that cannot list the interfaces. *)
Lemma listing_failure_on_blind_host :
  exists err : error,
    ListenMulticastUDPIfaces blind_host "udp6" None (Some wildcard) [] =
    Ret (None, Some err) [CListenUDP "udp6" wildcard; CInterfaces] /\
    Error err =
    "multicast: failed to get multicast interfaces: netlinkrib: permission denied".
Proof.
  destruct (ListenMulticastUDPIfaces_listing_failure blind_host "udp6" IPv6
              wildcard [] 3%nat _ eq_refl eq_refl eq_refl)
    as (err & H & _ & He).
  exists err. split; [exact H|exact He].
Defined.

(** An open on two given interfaces makes no listing. *)
Lemma explicit_list_on_linux :
  Forall (fun c => is_Interfaces c = false)
    [CListenUDP "udp4" mdns_group; CJoinGroup IPv4 3 tun0 mdns_group;
     CJoinGroup IPv4 3 eth0 mdns_group].
Proof.
  exact (ListenMulticastUDPIfaces_explicit_list_no_listing linux_host "udp4"
           [tun0; eth0] (Some mdns_group) [] _ _ eq_refl).
Defined.

(** One join out of two succeeds, and the open returns a connection. *)
Lemma one_join_suffices_on_linux :
  exists (c : UDPConn) (cs : list Call),
    ListenMulticastUDPIfaces linux_host "udp4" (Some [tun0; eth0])
      (Some mdns_group) [] = Ret (Some c, None) cs.
Proof.
  apply (ListenMulticastUDPIfaces_succeeds_iff_one_join linux_host "udp4"
           IPv4 mdns_group (Some [tun0; eth0]) [] 3%nat [tun0; eth0] []
           eq_refl eq_refl eq_refl).
  apply Exists_cons_tl, Exists_cons_hd. reflexivity.
Defined.

(** The joins of an open on the enumerated interfaces of a machine. *)
Lemma every_candidate_on_linux :
  exists (r : option UDPConn * option error) (tail : list Call),
    ListenMulticastUDPIfaces linux_host "udp4" None (Some mdns_group) [] =
    Ret r ([CListenUDP "udp4" mdns_group; CInterfaces;
            CJoinGroup IPv4 3 lo mdns_group; CJoinGroup IPv4 3 eth0 mdns_group]
           ++ tail).
Proof.
  destruct (ListenMulticastUDPIfaces_joins_every_candidate linux_host "udp4"
              IPv4 mdns_group None [] 3%nat [lo; eth0] [CInterfaces]
              eq_refl eq_refl eq_refl) as (r & tail & H & _).
  exists r, tail. exact H.
Defined.

(** A session of four operations adds at most four members. *)
Lemma members_after_a_session_on_linux :
  live_handle conn_eth0 = Some (IPv4, 3%nat) /\
  exists (c' : UDPConn) (cs : list Call) (extra : list Interface),
    run linux_host conn_eth0
      [OpJoin (Some lo) (Some mdns_group); OpJoin (Some tun0) (Some mdns_group);
       OpSetTTL 255; OpWrite ping (Some mdns_group)] [] = Ret c' cs /\
    ifaces c' = eth0 :: extra /\ (List.length extra <= 4)%nat.
Proof.
  assert (Hl : live_handle conn_eth0 = Some (IPv4, 3%nat)) by reflexivity.
  split; [exact Hl|].
  destruct (members_only_grow linux_host
              [OpJoin (Some lo) (Some mdns_group);
               OpJoin (Some tun0) (Some mdns_group);
               OpSetTTL 255; OpWrite ping (Some mdns_group)]
              conn_eth0 IPv4 3%nat [] Hl)
    as (c' & cs & extra & Hr & Hi & Hn & _).
  exists c', cs, extra. split; [exact Hr|]. split; [exact Hi|exact Hn].
Defined.

(** The close of a session on Linux. *)
Lemma close_after_a_session_on_linux :
  exists (f : Family) (c'' : UDPConn) (err : option error),
    family_of "udp4" = Some f /\
    Close linux_host
      (mkUDPConn 3 "udp4" [eth0; eth0; lo] (Some 3%nat) None) [] =
    Ret (c'', err) [CClosePacketConn f 3%nat; CCloseUDP 3%nat].
Proof.
  exact (Close_after_session linux_host "udp4" (Some [eth0])
           (Some mdns_group) [] []
           (mkUDPConn 3 "udp4" [eth0; eth0] (Some 3%nat) None)
           (mkUDPConn 3 "udp4" [eth0; eth0; lo] (Some 3%nat) None)
           None
           [CListenUDP "udp4" mdns_group; CJoinGroup IPv4 3 eth0 mdns_group]
           [CJoinGroup IPv4 3 lo mdns_group]
           [OpJoin (Some lo) (Some mdns_group)] eq_refl eq_refl).
Defined.

(** The TTL on an IPv4 connection and the hop limit on an IPv6 one. *)
Lemma ttl_on_linux :
  SetMulticastTTL linux_host conn_eth0 255 [] =
    Ret (conn_eth0, None) [CSetMulticastTTL 3 255] /\
  SetMulticastHopLimit linux_host
    (mkUDPConn 3 "udp6" [lo] None (Some 3%nat)) 1 [] =
    Ret (mkUDPConn 3 "udp6" [lo] None (Some 3%nat), None)
        [CSetMulticastHopLimit 3 1].
Proof.
  split.
  - exact (proj1 (SetMulticastTTL_per_family linux_host conn_eth0 IPv4 3%nat
                    255 [] eq_refl)).
  - exact (proj2 (SetMulticastTTL_per_family linux_host
                    (mkUDPConn 3 "udp6" [lo] None (Some 3%nat)) IPv6 3%nat
                    1 [] eq_refl)).
Defined.

(** The loopback on an IPv6 connection. *)
Lemma loopback_on_linux :
  SetMulticastLoopback linux_host
    (mkUDPConn 3 "udp6" [lo] None (Some 3%nat)) true [] =
  Ret (mkUDPConn 3 "udp6" [lo] None (Some 3%nat), None)
      [CSetMulticastLoopback IPv6 3 true].
Proof.
  exact (SetMulticastLoopback_per_family linux_host
           (mkUDPConn 3 "udp6" [lo] None (Some 3%nat)) IPv6 3%nat true []
           eq_refl).
Defined.

(** The zero value of the connection. *)
Lemma zero_value_panics :
  family_of (network (zero_UDPConn 0)) = None /\ ping <> [] /\
  SetMulticastTTL linux_host (zero_UDPConn 0) 1 [] = Panic "unreachable" /\
  WriteToMulticast linux_host (zero_UDPConn 0) ping (Some mdns_group) [] =
    Panic "unreachable".
Proof.
  assert (Hn : family_of (network (zero_UDPConn 0)) = None) by reflexivity.
  assert (Hb : ping <> []) by discriminate.
  split; [exact Hn|]. split; [exact Hb|].
  destruct (unreachable_on_unknown_network linux_host (zero_UDPConn 0) lo
              mdns_group mdns_group 1 true ping [] Hn Hb)
    as (_ & Ht & _ & _ & Hw).
  split; [exact Ht|exact Hw].
Defined.

(** A send on a closed connection that never had a member. *)
Lemma no_members_on_linux :
  WriteToMulticast linux_host (mkUDPConn 3 "udp6" [] None None) ping
    (Some mdns_group) [] =
  Ret (mkUDPConn 3 "udp6" [] None None, None) [].
Proof.
  exact (WriteToMulticast_no_members linux_host
           (mkUDPConn 3 "udp6" [] None None) IPv6 ping mdns_group []
           eq_refl eq_refl).
Defined.

(** The warning of one failure out of two. *)
Lemma partial_warning_on_linux :
  exists inner : error,
    joinIfaces linux_host conn_eth0 [tun0; lo] (Some mdns_group) [] =
    Ret (mkUDPConn 3 "udp4" [eth0; lo] (Some 3%nat) None, true,
         Some (wrapError
                 ("multicast: failed to join 1/2 interfaces: " ++ Error inner)
                 inner))
        [CJoinGroup IPv4 3 tun0 mdns_group; CJoinGroup IPv4 3 lo mdns_group]
    /\ wraps inner (errorString "no such device").
Proof.
  destruct (joinIfaces_partial_warning linux_host conn_eth0 IPv4 3%nat
              mdns_group [tun0; lo] [] eq_refl)
    as (inner & H & _ & Hw).
  - cbn. lia.
  - exists inner. split; [exact H|].
    apply (Hw (CJoinGroup IPv4 3 tun0 mdns_group)). left. reflexivity.
Defined.

(** Two joins that succeed. *)
Lemma all_joined_on_linux :
  joinIfaces linux_host conn_eth0 [lo; wlan0] (Some mdns_group) [] =
  Ret (mkUDPConn 3 "udp4" [eth0; lo; wlan0] (Some 3%nat) None, true, None)
      [CJoinGroup IPv4 3 lo mdns_group; CJoinGroup IPv4 3 wlan0 mdns_group].
Proof.
  apply (joinIfaces_all_joined linux_host conn_eth0 IPv4 3%nat mdns_group
           [lo; wlan0] [] eq_refl).
  - discriminate.
  - repeat constructor.
Defined.

